(** * Persian-news-ai: the ingestion and query paths of [app.py]

    A shallow embedding of the functions of [src/app.py] that decide how
    documents are chunked and indexed and how a question is filtered,
    retrieved and answered.

    Python [str] values are modelled by [string] (one [ascii] per
    character), Python [int] by [Z], a Python [dict] with string keys by
    [gmap string _] and Python lists by [list].  The third-party
    collaborators (hazm, pinecone, BM25Encoder, the chat model) are
    section variables; langchain's text splitter, whose windowing decides
    the chunking scenarios, is modelled in [RecursiveCharacterTextSplitter]. *)

From Stdlib Require Import ZArith List Ascii String Bool Lia.
From stdpp Require Import base decidable option list gmap strings.

Local Open Scope Z_scope.

(** ** Python built-ins on [str] and lists *)

Module Py.

(** [len(s)] *)
Definition len (s : string) : Z := Z.of_nat (String.length s).

(** Truthiness of a list and of a string: empty is false. *)
Definition truthy {A} (l : list A) : bool :=
  match l with [] => false | _ :: _ => true end.

Definition truthy_str (s : string) : bool :=
  match s with EmptyString => false | String _ _ => true end.

(** [str.isspace] on the characters a [string] can hold. *)
Definition isspace (c : ascii) : bool :=
  match c with
  | "009" | "010" | "011" | "012" | "013"
  | "028" | "029" | "030" | "031" | " " | "133" | "160" => true
  | _ => false
  end%char.

Fixpoint lstrip (s : string) : string :=
  match s with
  | EmptyString => EmptyString
  | String c s' => if isspace c then lstrip s' else s
  end.

(** [rstrip] keeps a character when it is not white space or when
    something is left after it. *)
Fixpoint rstrip (s : string) : string :=
  match s with
  | EmptyString => EmptyString
  | String c s' =>
      match rstrip s' with
      | EmptyString => if isspace c then EmptyString else String c EmptyString
      | r => String c r
      end
  end.

(** [s.strip()] *)
Definition strip (s : string) : string := rstrip (lstrip s).

(** [sep.join(l)] *)
Fixpoint join (sep : string) (l : list string) : string :=
  match l with
  | [] => EmptyString
  | [x] => x
  | x :: l' => x +:+ sep +:+ join sep l'
  end.

(** [list(s)]: the characters of [s], each as a one-character string. *)
Fixpoint chars (s : string) : list string :=
  match s with
  | EmptyString => []
  | String c s' => String c EmptyString :: chars s'
  end.

(** [sep in s] for a literal [sep]. *)
Fixpoint contains (sep s : string) : bool :=
  String.prefix sep s ||
  match s with
  | EmptyString => false
  | String _ s' => contains sep s'
  end.

(** [s.split(sep)], also [re.split] on a literal, for a non-empty [sep]:
    the pieces between the leftmost non-overlapping occurrences of [sep].
    [skip] counts the characters of a matched separator still to be
    dropped; the result is the piece being read and the pieces after it. *)
Fixpoint split_go (sep : string) (skip : nat) (text : string)
  : string * list string :=
  match text with
  | EmptyString => (EmptyString, [])
  | String c rest =>
      match skip with
      | S k => split_go sep k rest
      | O =>
          if String.prefix sep text then
            let '(p, ps) := split_go sep (String.length sep - 1) rest in
            (EmptyString, p :: ps)
          else
            let '(p, ps) := split_go sep 0 rest in
            (String c p, ps)
      end
  end.

Definition split (sep text : string) : list string :=
  let '(p, ps) := split_go sep 0 text in p :: ps.

(** [s * n] *)
Fixpoint repeat_str (s : string) (n : nat) : string :=
  match n with
  | O => EmptyString
  | S n' => s +:+ repeat_str s n'
  end.

End Py.

(** ** langchain's [RecursiveCharacterTextSplitter]

    The splitter is third-party code that app.py imports (line 10) and
    builds with [chunk_size] and [chunk_overlap] only (line 77), so with
    its defaults: separators ["\n\n", "\n", " ", ""], [keep_separator=True],
    [strip_whitespace=True], [length_function=len].  The module follows
    langchain's [_split_text_with_regex], [TextSplitter._join_docs],
    [TextSplitter._merge_splits] and
    [RecursiveCharacterTextSplitter._split_text] with these settings. *)

Module RecursiveCharacterTextSplitter.

Definition nl : string := String "010"%char EmptyString.

Definition separators : list string := [nl +:+ nl; nl; " "; ""].

(** [_split_text_with_regex(text, separator, keep_separator=True)]:
    [re.split] with the separator captured, every separator put back at
    the head of the piece that follows it, empty pieces dropped; with the
    empty separator, [list(text)]. *)
Definition _split_text_with_regex (text separator : string) : list string :=
  let splits :=
    if Py.truthy_str separator then
      match Py.split separator text with
      | [] => []
      | p :: ps => p :: map (fun q => separator +:+ q) ps
      end
    else Py.chars text in
  filter (fun s => s ≠ EmptyString) splits.

(** [_join_docs]: [None] when the stripped text is empty. *)
Definition _join_docs (docs : list string) (separator : string)
  : option string :=
  let text := Py.strip (Py.join separator docs) in
  if Py.truthy_str text then Some text else None.

Definition append_doc (docs : list string) (doc : option string)
  : list string :=
  match doc with Some d => docs ++ [d] | None => docs end.

Section Sized.

Variables (chunk_size chunk_overlap : Z).

(** The inner [while] of [_merge_splits]: drop pieces from the front of
    [current_doc] until at most [chunk_overlap] characters remain and
    the next piece fits.  On an empty [current_doc] the running total
    is 0 and the loop condition is false. *)
Fixpoint pop_front (separator_len _len : Z) (current_doc : list string)
  (total : Z) : list string * Z :=
  match current_doc with
  | [] => ([], total)
  | d0 :: rest =>
      if (chunk_overlap <? total)
         || ((chunk_size <? total + _len + separator_len) && (0 <? total))
      then
        pop_front separator_len _len rest
          (total - (Py.len d0
                    + (if Py.truthy rest then separator_len else 0)))
      else (current_doc, total)
  end.

(** [_merge_splits(splits, separator)], the loop over [splits] with its
    three variables [docs], [current_doc] and [total]. *)
Fixpoint merge_loop (separator : string) (splits docs current_doc : list string)
  (total : Z) : list string :=
  match splits with
  | [] => append_doc docs (_join_docs current_doc separator)
  | d :: splits' =>
      let separator_len := Py.len separator in
      let _len := Py.len d in
      let '(docs, current_doc, total) :=
        if (chunk_size <?
              total + _len
              + (if Py.truthy current_doc then separator_len else 0))
           && Py.truthy current_doc
        then
          let docs := append_doc docs (_join_docs current_doc separator) in
          let '(cd, t) := pop_front separator_len _len current_doc total in
          (docs, cd, t)
        else (docs, current_doc, total) in
      let current_doc := current_doc ++ [d] in
      let total :=
        total + _len
        + (if 1 <? Z.of_nat (length current_doc) then separator_len else 0) in
      merge_loop separator splits' docs current_doc total
  end.

Definition _merge_splits (splits : list string) (separator : string)
  : list string :=
  merge_loop separator splits [] [] 0.

(** The [for s in splits] loop of [_split_text]: pieces shorter than
    [chunk_size] are collected and merged, a longer piece is split
    again with the remaining separators ([recur]) or, when none is
    left, kept as it is. *)
Fixpoint split_loop (recur : option (string -> list string))
  (splits _good_splits final_chunks : list string) : list string :=
  match splits with
  | [] =>
      if Py.truthy _good_splits
      then final_chunks ++ _merge_splits _good_splits ""
      else final_chunks
  | s :: splits' =>
      if Py.len s <? chunk_size then
        split_loop recur splits' (_good_splits ++ [s]) final_chunks
      else
        let final_chunks :=
          if Py.truthy _good_splits
          then final_chunks ++ _merge_splits _good_splits ""
          else final_chunks in
        let final_chunks :=
          match recur with
          | None => final_chunks ++ [s]
          | Some f => final_chunks ++ f s
          end in
        split_loop recur splits' [] final_chunks
  end.

(** [_split_text(text, separators)]: the first separator that is empty
    or occurs in [text] is used, the ones after it are kept for the
    recursive calls; when none occurs the last one is used. *)
Fixpoint _split_text (separators : list string) (text : string)
  : list string :=
  match separators with
  | [] => []
  | _s :: new_separators =>
      if negb (Py.truthy_str _s) then
        split_loop None (_split_text_with_regex text _s) [] []
      else if Py.contains _s text then
        split_loop
          (if Py.truthy new_separators
           then Some (_split_text new_separators) else None)
          (_split_text_with_regex text _s) [] []
      else
        match new_separators with
        | [] => split_loop None (_split_text_with_regex text _s) [] []
        | _ :: _ => _split_text new_separators text
        end
  end.

Definition split_text (text : string) : list string :=
  _split_text separators text.

End Sized.

End RecursiveCharacterTextSplitter.

(** ** Data of the application *)

(** Fixed chunk parameters (app.py:37-38). *)
Definition CHUNK_SIZE : Z := 1200.
Definition CHUNK_OVERLAP : Z := 500.

(** The metadata dict of a document: keys "file_name", "category", "year". *)
Abbreviation Metadata := (gmap string string).

(** The dict of an uploaded document (["content"], ["metadata"]) and of a
    chunk (the same keys and ["id"]). *)
Record Doc := mkDoc {
  id : option Z;
  content : string;
  metadata : Metadata
}.

(** A retrieved langchain [Document]. *)
Record Document := mkDocument {
  page_content : string;
  doc_metadata : Metadata
}.

(** A metadata filter condition, [{"$in": values}]. *)
Inductive FilterCond := In_ (values : list string).

Global Instance FilterCond_eq_dec : EqDecision FilterCond.
Proof. solve_decision. Defined.

Abbreviation Filter := (gmap string FilterCond).

(** The three slots of the prompt template (app.py:143-159). *)
Record Prompt := mkPrompt {
  context : list Document;
  main_question : string;
  additional_note : string
}.

(** The two warnings of the question form (app.py:509 and 513). *)
Inductive Warning := enter_main_question | select_category_or_subcategory.

(** What the application does to the outside world. *)
Inductive Event :=
| BM25_load                                   (* BM25Encoder().load(file) *)
| BM25_fit (corpus : list string)             (* BM25Encoder().fit(corpus) *)
| BM25_dump                                   (* bm25_encoder.dump(file) *)
| add_texts (texts : list string) (metadatas : list Metadata)
| get_relevant_documents (query : string) (filter : Filter)
| llm_invoke (model_name : string) (prompt : Prompt)
| st_warning (w : Warning)
| st_error
| st_write (response : string).

(** ** State, trace and exceptions *)

(** The state the functions share: the file "full_bm25_values.json"
    ([None] when it does not exist) and the trace of calls made so far. *)
Record World := mkWorld {
  bm25_file : option string;
  trace : list Event
}.

Inductive Result (A : Type) := Ok (a : A) | Raise.
Arguments Ok {A} a.
Arguments Raise {A}.

Definition M (A : Type) : Type := World -> Result A * World.

Definition ret {A} (a : A) : M A := fun w => (Ok a, w).

Definition bind {A B} (m : M A) (k : A -> M B) : M B :=
  fun w => match m w with
           | (Ok a, w') => k a w'
           | (Raise, w') => (Raise, w')
           end.

Notation "x <- m ;; k" := (bind m (fun x => k))
  (at level 100, m at next level, right associativity).
Notation "m ;;; k" := (bind m (fun _ => k))
  (at level 100, right associativity).

(** [try: m except: handler] with a bare [except]. *)
Definition try_except {A} (m handler : M A) : M A :=
  fun w => match m w with
           | (Ok a, w') => (Ok a, w')
           | (Raise, w') => handler w'
           end.

Definition emit (e : Event) : M unit :=
  fun w => (Ok tt, mkWorld (bm25_file w) (trace w ++ [e])).

(** A call to a collaborator: recorded, then its result or its exception. *)
Definition call {A} (e : Event) (r : Result A) : M A :=
  emit e ;;; (fun w => (r, w)).

Definition write_file (c : string) : M unit :=
  fun w => (Ok tt, mkWorld (Some c) (trace w)).

(** ** Ingestion (app.py:54-131) *)

Section Ingestion.

(** hazm: [Normalizer().normalize] and [word_tokenize]. *)
Variable normalize : string -> string.
Variable word_tokenize : string -> list string.

(** langchain: [RecursiveCharacterTextSplitter(chunk_size, chunk_overlap)
    .split_text]. *)
Variable splitter : Z -> Z -> string -> list string.

(** pinecone_text: the fitted state of a [BM25Encoder], [fit], [load]
    (which raises on a file it cannot read) and [dump]. *)
Variable Encoder : Type.
Variable bm25_fit : list string -> Encoder.
Variable bm25_parse : string -> option Encoder.
Variable bm25_serialize : Encoder -> string.

(** [PineconeHybridSearchRetriever.add_texts], which may raise. *)
Variable vs_add_texts : list string -> list Metadata -> Result unit.

Definition preprocess_text (text : string) : string :=
  let text := normalize text in
  let tokens := word_tokenize text in
  Py.join " " tokens.

Definition is_valid_doc (doc : Doc) : bool :=
  50 <? Py.len (Py.strip (content doc)).

(** The inner [for chunk in ...] of [split_documents]. *)
Definition append_chunks (doc : Doc) (chunks : list string)
  (st : list Doc * Z) : list Doc * Z :=
  fold_left
    (fun '(split_docs, count) chunk =>
       let normalized_chunk := preprocess_text chunk in
       (split_docs ++ [mkDoc (Some count) normalized_chunk (metadata doc)],
        count + 1))
    chunks st.

Definition split_documents (docs : list Doc) : list Doc :=
  let split_docs := [] in
  let count := 1 in
  fst (fold_left
         (fun st doc =>
            append_chunks doc
              (splitter CHUNK_SIZE CHUNK_OVERLAP (content doc)) st)
         docs (split_docs, count)).

(** [BM25Encoder().load("full_bm25_values.json")] *)
Definition load_encoder : M Encoder :=
  emit BM25_load ;;;
  (fun w => match bm25_file w with
            | Some c => match bm25_parse c with
                        | Some enc => (Ok enc, w)
                        | None => (Raise, w)
                        end
            | None => (Raise, w)
            end).

Definition fit_encoder (corpus : list string) : M Encoder :=
  emit (BM25_fit corpus) ;;; ret (bm25_fit corpus).

Definition dump_encoder (enc : Encoder) : M unit :=
  emit BM25_dump ;;; write_file (bm25_serialize enc).

(** [os.path.exists("full_bm25_values.json")] *)
Definition path_exists : M bool :=
  fun w => (Ok (bool_decide (is_Some (bm25_file w))), w).

(** The retriever object: its sparse encoder and [top_k] (the index
    handle, the embedding client and the weight [alpha] are not
    modelled). *)
Record Vectorstore := mkVectorstore {
  sparse_encoder : Encoder;
  top_k : Z
}.

(** [embed_documents_in_pinecone], from "Load BM25Encoder" on
    (app.py:105-131); the creation of the index is not modelled. *)
Definition embed_documents_in_pinecone (docs : list Doc) : M Vectorstore :=
  ex <- path_exists ;;
  bm25_encoder <-
    (if ex then load_encoder
     else
       let all_texts := map content docs in
       bm25_encoder <- fit_encoder all_texts ;;
       dump_encoder bm25_encoder ;;;
       ret bm25_encoder) ;;
  let all_chunks := map content docs in
  let all_metadatas := map metadata docs in
  let vectorstore := mkVectorstore bm25_encoder 200 in
  call (add_texts all_chunks all_metadatas)
    (vs_add_texts all_chunks all_metadatas) ;;;
  ret vectorstore.

(** [initialize_chatbot] (app.py:192-216). *)
Definition initialize_chatbot (top_k : Z) : M Vectorstore :=
  bm25_encoder <-
    try_except load_encoder
      (bm25_encoder <- fit_encoder ["placeholder text"] ;;
       dump_encoder bm25_encoder ;;;
       ret bm25_encoder) ;;
  ret (mkVectorstore bm25_encoder top_k).

(** The "process document" button of [document_upload_page]
    (app.py:348-386): chunk the uploaded document, then index the chunks. *)
Definition process_document (doc : Doc) : M unit :=
  let chunks := split_documents [doc] in
  try_except
    (embed_documents_in_pinecone chunks ;;; ret tt)
    (emit st_error).

End Ingestion.

(** ** Query (app.py:133-229 and 505-568) *)

(** [get_selected_subfolders]; [data] is the parsed "folder_structure.json",
    a list whose first element maps a folder to its sub-folders.  [None]
    stands for the [IndexError] of [data[0]] on an empty list. *)
Definition get_selected_subfolders (data : list (gmap string (list string)))
  (selected_folders : list string) : option (list string) :=
  if bool_decide (selected_folders = []) then Some ["ALL"]
  else
    match data !! 0%nat with
    | None => None
    | Some folder_dict =>
        let subfolder_list := ["ALL"] in
        Some (fold_left
                (fun subfolder_list folder =>
                   match folder_dict !! folder with
                   | Some subfolders => subfolder_list ++ subfolders
                   | None => subfolder_list
                   end)
                selected_folders subfolder_list)
    end.

(** The [filter_dict] that [filtered_retriever] builds (app.py:165-171). *)
Definition filter_dict (categories sub_categories : list string) : Filter :=
  let filter_dict : Filter := ∅ in
  let filter_dict :=
    if bool_decide (categories ≠ ["ALL"]) && bool_decide (categories ≠ [])
    then
      if Py.truthy categories
      then <["category" := In_ categories]> filter_dict
      else filter_dict
    else filter_dict in
  let filter_dict :=
    if bool_decide (sub_categories ≠ ["ALL"])
       && bool_decide (sub_categories ≠ [])
    then
      if Py.truthy sub_categories
      then <["year" := In_ sub_categories]> filter_dict
      else filter_dict
    else filter_dict in
  filter_dict.

(** What a filter asks of a chunk's metadata: for every constrained field
    the chunk's value is one of the listed values. *)
Definition passes (f : Filter) (md : Metadata) : Prop :=
  ∀ field values, f !! field = Some (In_ values) →
                  ∃ v, md !! field = Some v ∧ v ∈ values.

(** [debug_print_context] collects the metadata of the context documents
    in a local list and returns its argument. *)
Definition debug_print_context (inputs : Prompt) : Prompt :=
  let con := context inputs in
  let context := fold_left (fun context doc => context ++ [doc_metadata doc])
                   con [] in
  inputs.

(** The input dict of the chain. *)
Record Inputs := mkInputs {
  in_main_question : string;
  in_additional_note : string
}.

Section Query.

Variable Encoder : Type.

(** [PineconeHybridSearchRetriever.get_relevant_documents] and the chat
    model followed by [StrOutputParser]; either may raise. *)
Variable vs_get_relevant_documents :
  Vectorstore Encoder -> string -> Filter -> Result (list Document).
Variable llm : string -> Prompt -> Result string.

Definition filtered_retriever (vs : Vectorstore Encoder)
  (categories sub_categories : list string) (query : string)
  : M (list Document) :=
  let f := filter_dict categories sub_categories in
  call (get_relevant_documents query f) (vs_get_relevant_documents vs query f).

(** [create_chatbot_retrieval_qa] returns the chain; the chain is the
    function run by [invoke]. *)
Definition create_chatbot_retrieval_qa (main_query additional_note : string)
  (vs : Vectorstore Encoder) (categories sub_categories : list string)
  (model_name : string) : Inputs -> M string :=
  fun x =>
    context <- filtered_retriever vs categories sub_categories
                 (in_main_question x) ;;
    let inputs := mkPrompt context (in_main_question x)
                    (in_additional_note x) in
    let inputs := debug_print_context inputs in
    call (llm_invoke model_name inputs) (llm model_name inputs).

(** The body of the submit button of [chatbot_page] (app.py:505-568). *)
Definition chatbot_page_submit (vs : Vectorstore Encoder)
  (main_query additional_note : string)
  (categories sub_categories : list string) (selected_model : string)
  : M unit :=
  if negb (Py.truthy_str main_query) then
    emit (st_warning enter_main_question)
  else if negb (Py.truthy categories) && negb (Py.truthy sub_categories) then
    emit (st_warning select_category_or_subcategory)
  else
    try_except
      (let chatbot :=
         create_chatbot_retrieval_qa main_query additional_note vs
           categories sub_categories selected_model in
       response <-
         chatbot (mkInputs main_query
                    (if Py.truthy_str additional_note
                     then additional_note else "")) ;;
       emit (st_write response))
      (emit st_error).

End Query.

(** ** Vocabulary of the properties *)

Section ChunkNumbering.

Variable normalize : string -> string.
Variable word_tokenize : string -> list string.
Variable splitter : Z -> Z -> string -> list string.

(** The chunks of one document, the first of them numbered [n]. *)
Definition chunks_from (n : Z) (doc : Doc) (ws : list string) : list Doc :=
  imap (fun i w => mkDoc (Some (n + Z.of_nat i))
                     (preprocess_text normalize word_tokenize w)
                     (metadata doc)) ws.

(** All chunks of a list of documents, the first of them numbered [n]. *)
Fixpoint all_chunks_from (n : Z) (docs : list Doc) : list Doc :=
  match docs with
  | [] => []
  | doc :: docs' =>
      let ws := splitter CHUNK_SIZE CHUNK_OVERLAP (content doc) in
      chunks_from n doc ws
      ++ all_chunks_from (n + Z.of_nat (length ws)) docs'
  end.

End ChunkNumbering.

(** The distinct file names of retrieved documents. *)
Definition file_names (docs : list Document) : gset string :=
  list_to_set (omap (fun d => doc_metadata d !! "file_name") docs).

(** The calls to the retriever among the events. *)
Definition is_retrieval (e : Event) : Prop :=
  match e with get_relevant_documents _ _ => True | _ => False end.

(** The characters of a list of pieces. *)
Definition sum_len (l : list string) : Z :=
  foldr (fun s acc => Py.len s + acc) 0 l.

(** No character of [s] is white space. *)
Fixpoint whitespace_free (s : string) : bool :=
  match s with
  | EmptyString => true
  | String c s' => negb (Py.isspace c) && whitespace_free s'
  end.

(** ** Scenarios *)

(** Stand-ins for the collaborators, used to run the functions on
    concrete inputs. *)
Module Scenario.

Import RecursiveCharacterTextSplitter.

(** A normaliser that leaves the text as it is, and a tokenizer that
    does what hazm's [word_tokenize] does to brackets and line breaks: a
    line break or tab counts as a space, a bracket becomes a token of
    its own, and the tokens are the non-empty pieces between spaces. *)
Definition normalize (text : string) : string := text.

Fixpoint space_out (text : string) : string :=
  match text with
  | EmptyString => EmptyString
  | String c rest =>
      match c with
      | "010"%char | "009"%char => String " " (space_out rest)
      | "("%char | ")"%char => String " " (String c (String " " (space_out rest)))
      | _ => String c (space_out rest)
      end
  end.

Definition word_tokenize (text : string) : list string :=
  filter (fun t => t ≠ EmptyString) (Py.split " " (space_out text)).

(** An encoder state that is the fitted corpus itself, written to the
    file as comma-separated text; an empty file cannot be loaded. *)
Definition Encoder : Type := list string.
Definition bm25_fit (corpus : list string) : Encoder := corpus.
Definition bm25_serialize (enc : Encoder) : string := Py.join "," enc.
Definition bm25_parse (c : string) : option Encoder :=
  if Py.truthy_str c then Some (Py.split "," c) else None.

(** An index that takes every batch, a retriever that finds one chunk of
    the file [file_name], and a model that always gives the same answer. *)
Definition vs_add_texts : list string -> list Metadata -> Result unit :=
  fun _ _ => Ok tt.

Definition retriever (file_name : string)
  : Vectorstore Encoder -> string -> Filter -> Result (list Document) :=
  fun _ _ _ => Ok [mkDocument "text" {[ "file_name" := file_name ]}].

Definition llm : string -> Prompt -> Result string :=
  fun _ _ => Ok "answer".

Definition vs : Vectorstore Encoder := mkVectorstore Encoder [] 60.

Definition world0 : World := mkWorld None [].

(** 2600 characters in seven lines: six of 399 letters and one of 199,
    each ended by a line break. *)
Definition seven_lines : string :=
  Py.join nl [Py.repeat_str "a" 399; Py.repeat_str "b" 399;
              Py.repeat_str "c" 399; Py.repeat_str "d" 399;
              Py.repeat_str "e" 399; Py.repeat_str "f" 399;
              Py.repeat_str "g" 199] +:+ nl.

(** 2600 letters, and 1200 characters of brackets and letters. *)
Definition letters_2600 : string := Py.repeat_str "a" 2600.
Definition brackets_1200 : string := Py.repeat_str "(a" 600.

(** A taxonomy with two folders that share the sub-folder "2024". *)
Definition folders : list (gmap string (list string)) :=
  [ {[ "news" := ["2023"; "2024"]; "reports" := ["2024"; "2025"] ]} ].

End Scenario.

(** ** Further functions of app.py *)

Definition newline : string := String "010"%char EmptyString.

(** [extract_text_from_docx] (app.py:60-66); [paragraphs] are the texts of
    [doc.paragraphs]. *)
Definition extract_text_from_docx (paragraphs : list string) : string :=
  let text := EmptyString in
  fold_left (fun text para => text +:+ (para +:+ newline)) paragraphs text.

(** The document that [document_upload_page] builds (app.py:336-362): the
    sub-folder choice "None" stands for no sub-folder and is stored as "". *)
Definition uploaded_doc (text file_name selected_folder selected_subfolder : string)
  : Doc :=
  let selected_subfolder :=
    if bool_decide (selected_subfolder = "None") then "" else selected_subfolder in
  mkDoc None text
    {[ "file_name" := file_name;
       "category" := selected_folder;
       "year" := selected_subfolder ]}.

(** The messages of the "create sub-folder" button (app.py:317, 325, 330). *)
Inductive FolderMessage :=
| subfolder_exists | subfolder_added | enter_subfolder_name.

(** The "create sub-folder" button of [document_upload_page]
    (app.py:306-330): from the parsed "folder_structure.json" to the
    structure written back and the messages shown.  [None] stands for the
    [IndexError] of [current_structure[0]]; with a blank name the file is
    neither read nor written. *)
Definition create_subfolder
  (current_structure : list (gmap string (list string)))
  (selected_folder new_subfolder_name : string)
  : option (list (gmap string (list string)) * list FolderMessage) :=
  if Py.truthy_str new_subfolder_name
     && Py.truthy_str (Py.strip new_subfolder_name)
  then
    match current_structure with
    | [] => None
    | folders :: rest =>
        let '(folders, messages) :=
          match folders !! selected_folder with
          | Some subfolders =>
              if bool_decide (new_subfolder_name ∉ subfolders)
              then (<[selected_folder := subfolders ++ [new_subfolder_name]]>
                      folders, [])
              else (folders, [subfolder_exists])
          | None => (<[selected_folder := [new_subfolder_name]]> folders, [])
          end in
        Some (folders :: rest, messages ++ [subfolder_added])
    end
  else Some (current_structure, [enter_subfolder_name]).

(** A session of the application: uploads and openings of the chat page,
    in any order. *)
Inductive Operation :=
| upload (doc : Doc)
| open_chat (top_k : Z).

Section Session.

Variable normalize : string -> string.
Variable word_tokenize : string -> list string.
Variable splitter : Z -> Z -> string -> list string.
Variable Encoder : Type.
Variable bm25_fit : list string -> Encoder.
Variable bm25_parse : string -> option Encoder.
Variable bm25_serialize : Encoder -> string.
Variable vs_add_texts : list string -> list Metadata -> Result unit.

Definition run_operation (op : Operation) : M unit :=
  match op with
  | upload doc =>
      process_document normalize word_tokenize splitter Encoder bm25_fit
        bm25_parse bm25_serialize vs_add_texts doc
  | open_chat top_k =>
      initialize_chatbot Encoder bm25_fit bm25_parse bm25_serialize top_k ;;;
      ret tt
  end.

Fixpoint run_operations (ops : list Operation) : M unit :=
  match ops with
  | [] => ret tt
  | op :: ops' => run_operation op ;;; run_operations ops'
  end.

End Session.

(** The chunks [chunks] with every id raised by [k]. *)
Definition shift_ids (k : Z) (chunks : list Doc) : list Doc :=
  map (fun c => mkDoc (option_map (fun i => i + k) (id c)) (content c)
                  (metadata c)) chunks.

(** The events that fit or write the encoder state. *)
Definition is_fit (e : Event) : bool :=
  match e with BM25_fit _ => true | _ => false end.

Definition is_dump (e : Event) : bool :=
  match e with BM25_dump => true | _ => false end.

(** The texts handed to [add_texts] in the events [evs]. *)
Definition indexed_texts (evs : list Event) : list string :=
  concat (map (fun e => match e with add_texts texts _ => texts | _ => [] end)
            evs).

(** The error message that follows a collaborator call that raised. *)
Definition error_if_raised {A} (r : Result A) : list Event :=
  match r with Ok _ => [] | Raise => [st_error] end.

(** [s[k:]] *)
Fixpoint string_drop (k : nat) (s : string) : string :=
  match k, s with
  | O, _ => s
  | S k', String _ s' => string_drop k' s'
  | S _, EmptyString => EmptyString
  end.

(** Further stand-ins for the collaborators. *)
Module Fixture.

(** An encoder state that is the fitted corpus joined by commas, written
    to the file after the letter "B"; an empty file cannot be loaded, and
    every written state loads again. *)
Definition Encoder : Type := string.
Definition bm25_fit (corpus : list string) : Encoder := Py.join "," corpus.
Definition bm25_serialize (enc : Encoder) : string := String "B"%char enc.
Definition bm25_parse (c : string) : option Encoder :=
  match c with
  | String _ enc => Some enc
  | EmptyString => None
  end.


Definition llm_fails : string -> Prompt -> Result string :=
  fun _ _ => Raise.

Definition doc_abc : Doc := mkDoc None "abc" ∅.
Definition doc_empty : Doc := mkDoc None "" ∅.

(** The folders of [Scenario.folders]. *)
Definition taxonomy : gmap string (list string) :=
  {[ "news" := ["2023"; "2024"]; "reports" := ["2024"; "2025"] ]}.

End Fixture.

(** * Properties *)

(** ** Strings *)

Lemma len_nonneg (s : string) : 0 <= Py.len s.
Proof. unfold Py.len. lia. Qed.

Lemma len_String (c : ascii) (s : string) : Py.len (String c s) = 1 + Py.len s.
Proof. unfold Py.len. simpl String.length. lia. Qed.

Lemma len_append (s t : string) : Py.len (s +:+ t) = Py.len s + Py.len t.
Proof.
  unfold Py.len. induction s as [|c s IH]; simpl String.length.
  - reflexivity.
  - change (String c s +:+ t) with (String c (s +:+ t)).
    simpl String.length. lia.
Qed.

Lemma len_lstrip (s : string) : Py.len (Py.lstrip s) <= Py.len s.
Proof.
  induction s as [|c s IH]; simpl; [lia|].
  destruct (Py.isspace c); rewrite ?len_String; lia.
Qed.

Lemma len_rstrip (s : string) : Py.len (Py.rstrip s) <= Py.len s.
Proof.
  induction s as [|c s IH]; simpl; [lia|].
  destruct (Py.rstrip s) as [|c' r] eqn:E.
  - destruct (Py.isspace c); rewrite ?len_String;
      change (Py.len EmptyString) with 0 in *; pose proof (len_nonneg s); lia.
  - rewrite !len_String in *. lia.
Qed.

Lemma len_strip (s : string) : Py.len (Py.strip s) <= Py.len s.
Proof.
  unfold Py.strip. pose proof (len_rstrip (Py.lstrip s)).
  pose proof (len_lstrip s). lia.
Qed.

Lemma truthy_str_false (s : string) : Py.truthy_str s = false ↔ s = EmptyString.
Proof. destruct s; simpl; split; congruence. Qed.

Lemma truthy_false {A} (l : list A) : Py.truthy l = false ↔ l = [].
Proof. destruct l; simpl; split; congruence. Qed.

(** ** [split_documents]: one chunk per window, numbered from 1 *)

Section SplitDocuments.

Variable normalize : string -> string.
Variable word_tokenize : string -> list string.
Variable splitter : Z -> Z -> string -> list string.

Abbreviation preprocess := (preprocess_text normalize word_tokenize).
Abbreviation windows_of doc := (splitter CHUNK_SIZE CHUNK_OVERLAP (content doc)).
Abbreviation chunks_of := (chunks_from normalize word_tokenize).
Abbreviation all_chunks := (all_chunks_from normalize word_tokenize splitter).

Lemma append_chunks_spec doc ws acc n :
  append_chunks normalize word_tokenize doc ws (acc, n)
  = (acc ++ chunks_of n doc ws, n + Z.of_nat (length ws)).
Proof.
  unfold append_chunks, chunks_from.
  revert acc n. induction ws as [|w ws IH]; intros acc n; simpl.
  - rewrite app_nil_r. f_equal. lia.
  - rewrite IH. rewrite <- app_assoc. simpl. f_equal.
    + f_equal. f_equal.
      * do 2 f_equal. lia.
      * apply imap_ext. intros i x _. simpl. do 2 f_equal. lia.
    + lia.
Qed.

Lemma split_documents_fold docs acc n :
  fst (fold_left
         (fun st doc =>
            append_chunks normalize word_tokenize doc (windows_of doc) st)
         docs (acc, n))
  = acc ++ all_chunks n docs.
Proof.
  revert acc n. induction docs as [|doc docs IH]; intros acc n; simpl.
  - by rewrite app_nil_r.
  - rewrite append_chunks_spec, IH. by rewrite <- app_assoc.
Qed.

Lemma split_documents_spec docs :
  split_documents normalize word_tokenize splitter docs = all_chunks 1 docs.
Proof. unfold split_documents. by rewrite split_documents_fold. Qed.

Lemma elem_of_chunks_from c n doc ws :
  c ∈ chunks_of n doc ws ↔
  ∃ i w, ws !! i = Some w
         ∧ c = mkDoc (Some (n + Z.of_nat i)) (preprocess w) (metadata doc).
Proof.
  unfold chunks_from. rewrite list_elem_of_lookup. split.
  - intros [i Hi]. rewrite list_lookup_imap in Hi.
    destruct (ws !! i) as [w|] eqn:E; simplify_eq/=. eauto.
  - intros (i & w & Hw & ->). exists i. rewrite list_lookup_imap, Hw. done.
Qed.

Lemma elem_of_all_chunks_from c n docs :
  c ∈ all_chunks n docs →
  ∃ doc w, doc ∈ docs ∧ w ∈ windows_of doc
           ∧ content c = preprocess w ∧ metadata c = metadata doc.
Proof.
  revert n. induction docs as [|doc docs IH]; intros n; simpl.
  - by intros ?%elem_of_nil.
  - rewrite elem_of_app. intros [H|H].
    + apply elem_of_chunks_from in H as (i & w & Hw & ->).
      exists doc, w. split_and!; [left | | done | done].
      apply list_elem_of_lookup; eauto.
    + apply IH in H as (d & w & ? & ? & ? & ?).
      exists d, w. split_and!; [by right | done..].
Qed.

Lemma all_chunks_from_complete n docs doc w :
  doc ∈ docs → w ∈ windows_of doc →
  ∃ c, c ∈ all_chunks n docs
       ∧ content c = preprocess w ∧ metadata c = metadata doc.
Proof.
  intros Hd Hw. revert n.
  induction docs as [|d docs IH]; intros n; [by apply elem_of_nil in Hd|].
  apply elem_of_cons in Hd as [<-|Hd]; simpl.
  - apply list_elem_of_lookup in Hw as [i Hi].
    exists (mkDoc (Some (n + Z.of_nat i)) (preprocess w) (metadata doc)).
    split; [|done]. apply elem_of_app; left.
    apply elem_of_chunks_from; eauto.
  - destruct (IH Hd (n + Z.of_nat (length (windows_of d)))) as (c & ? & ?).
    exists c. split; [|done]. apply elem_of_app; by right.
Qed.

End SplitDocuments.

(** ** The state monad *)

Lemma bind_ok {A B} (m : M A) (k : A -> M B) w a w' :
  m w = (Ok a, w') → bind m k w = k a w'.
Proof. unfold bind. by intros ->. Qed.

Lemma bind_raise {A B} (m : M A) (k : A -> M B) w w' :
  m w = (Raise, w') → bind m k w = (Raise, w').
Proof. unfold bind. by intros ->. Qed.

Lemma call_eq {A} (e : Event) (r : Result A) w :
  call e r w = (r, mkWorld (bm25_file w) (trace w ++ [e])).
Proof. reflexivity. Qed.

(** ** The sparse encoder on both paths *)

Section EncoderState.

Variable Encoder : Type.
Variable bm25_fit : list string -> Encoder.
Variable bm25_parse : string -> option Encoder.
Variable bm25_serialize : Encoder -> string.
Variable vs_add_texts : list string -> list Metadata -> Result unit.

Abbreviation ingest :=
  (embed_documents_in_pinecone Encoder bm25_fit bm25_parse bm25_serialize
     vs_add_texts).

Abbreviation init := (initialize_chatbot Encoder bm25_fit bm25_parse bm25_serialize).

(** A state file that loads is reused by both paths; nothing is fitted
    and the file is not written. *)
Lemma ingest_reuses_state docs c enc tr :
  bm25_parse c = Some enc →
  ingest docs (mkWorld (Some c) tr)
  = (match vs_add_texts (map content docs) (map metadata docs) with
     | Ok _ => Ok (mkVectorstore Encoder enc 200)
     | Raise => Raise
     end,
     mkWorld (Some c)
       (tr ++ [BM25_load; add_texts (map content docs) (map metadata docs)])).
Proof.
  intros H. unfold embed_documents_in_pinecone, bind, path_exists, load_encoder,
    bind, call, bind, emit, ret; simpl. rewrite H. simpl.
  rewrite <- app_assoc. by destruct (vs_add_texts _ _).
Qed.

Lemma init_reuses_state k c enc tr :
  bm25_parse c = Some enc →
  init k (mkWorld (Some c) tr)
  = (Ok (mkVectorstore Encoder enc k), mkWorld (Some c) (tr ++ [BM25_load])).
Proof.
  intros H. unfold initialize_chatbot, bind, try_except, load_encoder,
    bind, emit, ret; simpl. by rewrite H.
Qed.

(** Without a state file both paths fit and write the file at once. *)
Lemma ingest_fits_without_state docs tr :
  ingest docs (mkWorld None tr)
  = (match vs_add_texts (map content docs) (map metadata docs) with
     | Ok _ => Ok (mkVectorstore Encoder (bm25_fit (map content docs)) 200)
     | Raise => Raise
     end,
     mkWorld (Some (bm25_serialize (bm25_fit (map content docs))))
       (tr ++ [BM25_fit (map content docs); BM25_dump;
               add_texts (map content docs) (map metadata docs)])).
Proof.
  unfold embed_documents_in_pinecone, bind, path_exists, fit_encoder,
    dump_encoder, call, bind, emit, write_file, ret; simpl.
  rewrite <- !app_assoc. by destruct (vs_add_texts _ _).
Qed.


(** A state file that does not load makes the ingestion path raise
    before anything is indexed. *)
Lemma ingest_raises_on_unreadable_state docs c tr :
  bm25_parse c = None →
  ingest docs (mkWorld (Some c) tr) = (Raise, mkWorld (Some c) (tr ++ [BM25_load])).
Proof.
  intros H. unfold embed_documents_in_pinecone, bind, path_exists, load_encoder,
    bind, emit; simpl. by rewrite H.
Qed.

(** C4 (code defect): the query-initialisation path catches every failure
    of [load], not only a missing file.  When the state file exists but
    cannot be read, [initialize_chatbot] fits a new encoder on the
    placeholder corpus and overwrites the file. *)
Theorem init_refits_over_existing_state k c tr :
  bm25_parse c = None →
  init k (mkWorld (Some c) tr)
  = (Ok (mkVectorstore Encoder (bm25_fit ["placeholder text"]) k),
     mkWorld (Some (bm25_serialize (bm25_fit ["placeholder text"])))
       (tr ++ [BM25_load; BM25_fit ["placeholder text"]; BM25_dump])).
Proof.
  intros H. unfold initialize_chatbot, bind, try_except, load_encoder,
    fit_encoder, dump_encoder, bind, emit, write_file, ret; simpl.
  rewrite H. simpl. by rewrite <- !app_assoc.
Qed.

End EncoderState.

(** ** Chunks that reach the index *)

Lemma is_valid_doc_short (c : Doc) :
  Py.len (content c) < 50 → is_valid_doc c = false.
Proof.
  intros H. unfold is_valid_doc. apply Z.ltb_ge.
  pose proof (len_strip (content c)). lia.
Qed.

(** What [process_document] hands to [add_texts] when the encoder state can
    be obtained (no state file, or one that loads). *)
Lemma process_document_trace normalize word_tokenize splitter
  (Encoder : Type) bm25_fit bm25_parse bm25_serialize vs_add_texts doc w0 :
  (∀ c, bm25_file w0 = Some c → is_Some (bm25_parse c)) →
  let chunks := split_documents normalize word_tokenize splitter [doc] in
  add_texts (map content chunks) (map metadata chunks)
  ∈ trace (snd (process_document normalize word_tokenize splitter
                  Encoder bm25_fit bm25_parse bm25_serialize vs_add_texts
                  doc w0)).
Proof.
  intros Hload chunks. destruct w0 as [[c|] tr];
    unfold process_document, try_except, bind; fold chunks.
  - destruct (Hload c eq_refl) as [enc Henc].
    rewrite (ingest_reuses_state _ _ _ _ _ _ _ enc) by done.
    destruct (vs_add_texts _ _); simpl.
    + apply elem_of_app. right. apply list_elem_of_further, list_elem_of_here.
    + apply elem_of_app. left. apply elem_of_app. right.
      apply list_elem_of_further, list_elem_of_here.
  - rewrite ingest_fits_without_state.
    destruct (vs_add_texts _ _); simpl.
    + apply elem_of_app. right.
      do 2 apply list_elem_of_further. apply list_elem_of_here.
    + apply elem_of_app. left. apply elem_of_app. right.
      do 2 apply list_elem_of_further. apply list_elem_of_here.
Qed.

(** C1 (code defect): [split_documents] never applies [is_valid_doc].  A
    window whose normalised text has fewer than 50 characters becomes a
    chunk like any other, although [is_valid_doc] rejects it, and its
    content is among the texts that [process_document] passes to
    [add_texts]. *)
Theorem short_chunk_is_indexed normalize word_tokenize splitter
  (Encoder : Type) bm25_fit bm25_parse bm25_serialize vs_add_texts doc w w0 :
  w ∈ splitter CHUNK_SIZE CHUNK_OVERLAP (content doc) →
  Py.len (preprocess_text normalize word_tokenize w) < 50 →
  (∀ c, bm25_file w0 = Some c → is_Some (bm25_parse c)) →
  ∃ chunk,
    chunk ∈ split_documents normalize word_tokenize splitter [doc]
    ∧ content chunk = preprocess_text normalize word_tokenize w
    ∧ is_valid_doc chunk = false
    ∧ ∃ texts metadatas,
        add_texts texts metadatas
        ∈ trace (snd (process_document normalize word_tokenize splitter
                        Encoder bm25_fit bm25_parse bm25_serialize
                        vs_add_texts doc w0))
        ∧ content chunk ∈ texts.
Proof.
  intros Hw Hshort Hload.
  destruct (all_chunks_from_complete normalize word_tokenize splitter 1 [doc] doc w)
    as (chunk & Hin & Hc & _); [apply list_elem_of_here | done |].
  rewrite <- split_documents_spec in Hin.
  exists chunk. split_and!; [done | done | |].
  - apply is_valid_doc_short. by rewrite Hc.
  - eexists _, _. split; [by apply process_document_trace|].
    apply list_elem_of_fmap. by exists chunk.
Qed.

(** ** Sub-folder options *)

(** The sub-folder lists of the selected folders that the taxonomy knows,
    one after the other. *)
Lemma get_selected_subfolders_fold (folder_dict : gmap string (list string))
  (selected_folders acc : list string) :
  fold_left
    (fun subfolder_list folder =>
       match folder_dict !! folder with
       | Some subfolders => subfolder_list ++ subfolders
       | None => subfolder_list
       end)
    selected_folders acc
  = acc ++ concat (map (fun folder => default [] (folder_dict !! folder))
                     selected_folders).
Proof.
  revert acc. induction selected_folders as [|f fs IH]; intros acc; simpl.
  - by rewrite app_nil_r.
  - rewrite IH. destruct (folder_dict !! f); simpl.
    + by rewrite <- app_assoc.
    + done.
Qed.

Lemma elem_of_concat {A} (x : A) (ls : list (list A)) :
  x ∈ concat ls ↔ ∃ l, x ∈ l ∧ l ∈ ls.
Proof.
  induction ls as [|l ls IH]; simpl.
  - split; [by intros ?%elem_of_nil | by intros (? & _ & ?%elem_of_nil)].
  - rewrite elem_of_app, IH. split.
    + intros [?|(l' & ? & ?)].
      * exists l. split; [done|]. apply list_elem_of_here.
      * exists l'. split; [done|]. by apply list_elem_of_further.
    + intros (l' & ? & [->|?]%elem_of_cons); [by left | right; eauto].
Qed.

(** C5 (amended): for a taxonomy file with a first entry,
    [get_selected_subfolders] returns the list that starts with "ALL" and
    continues with the configured sub-folder lists of the selected folders,
    in selection order and with repeated values kept; its members are
    "ALL" and the sub-folders of the selected folders; for the empty
    selection it returns ["ALL"]. *)
Theorem get_selected_subfolders_spec (folder_dict : gmap string (list string))
  (rest : list (gmap string (list string))) (selected_folders : list string) :
  let subfolder_list :=
    "ALL" :: concat (map (fun folder => default [] (folder_dict !! folder))
                       selected_folders) in
  get_selected_subfolders (folder_dict :: rest) selected_folders
  = Some subfolder_list
  ∧ (∀ x, x ∈ subfolder_list ↔
          x = "ALL" ∨ ∃ folder subfolders,
                        folder ∈ selected_folders
                        ∧ folder_dict !! folder = Some subfolders
                        ∧ x ∈ subfolders)
  ∧ (∀ data, get_selected_subfolders data [] = Some ["ALL"]).
Proof.
  split_and!.
  - unfold get_selected_subfolders. case_bool_decide as Hsel.
    + by subst.
    + simpl. by rewrite get_selected_subfolders_fold.
  - intros x. rewrite elem_of_cons. f_equiv.
    rewrite elem_of_concat. split.
    + intros (l & Hx & Hl). apply list_elem_of_fmap in Hl as (folder & -> & Hf).
      destruct (folder_dict !! folder) as [subs|] eqn:E; simpl in Hx.
      * eauto.
      * by apply elem_of_nil in Hx.
    + intros (folder & subs & Hf & E & Hx). exists subs. split; [done|].
      apply list_elem_of_fmap. exists folder. by rewrite E.
  - done.
Qed.

(** ** The retrieval filter *)

Lemma filter_dict_guard (selection : list string) :
  bool_decide (selection ≠ ["ALL"]) && bool_decide (selection ≠ [])
  = negb (bool_decide (selection = [] ∨ selection = ["ALL"])).
Proof.
  repeat case_bool_decide; simpl; try done; exfalso; tauto.
Qed.

Lemma filter_dict_eq (categories sub_categories : list string) :
  filter_dict categories sub_categories
  = (if bool_decide (sub_categories = [] ∨ sub_categories = ["ALL"])
     then (fun f : Filter => f) else <["year" := In_ sub_categories]>)
      ((if bool_decide (categories = [] ∨ categories = ["ALL"])
        then (fun f : Filter => f) else <["category" := In_ categories]>) ∅).
Proof.
  unfold filter_dict. rewrite !filter_dict_guard.
  destruct (bool_decide (categories = [] ∨ categories = ["ALL"])) eqn:E1,
           (bool_decide (sub_categories = [] ∨ sub_categories = ["ALL"])) eqn:E2;
    simpl; try done.
  - destruct sub_categories; [|done].
    apply bool_decide_eq_false in E2. naive_solver.
  - destruct categories; [|done].
    apply bool_decide_eq_false in E1. naive_solver.
  - destruct categories.
    { apply bool_decide_eq_false in E1. naive_solver. }
    destruct sub_categories; [|done].
    apply bool_decide_eq_false in E2. naive_solver.
Qed.

Lemma filter_dict_category (categories sub_categories : list string) :
  filter_dict categories sub_categories !! "category"
  = (if bool_decide (categories = [] ∨ categories = ["ALL"])
     then None else Some (In_ categories)).
Proof. rewrite filter_dict_eq. repeat case_bool_decide; by simplify_map_eq. Qed.

Lemma filter_dict_year (categories sub_categories : list string) :
  filter_dict categories sub_categories !! "year"
  = (if bool_decide (sub_categories = [] ∨ sub_categories = ["ALL"])
     then None else Some (In_ sub_categories)).
Proof. rewrite filter_dict_eq. repeat case_bool_decide; by simplify_map_eq. Qed.

Lemma filter_dict_other (categories sub_categories : list string) (field : string) :
  field ≠ "category" → field ≠ "year" →
  filter_dict categories sub_categories !! field = None.
Proof.
  intros ? ?. rewrite filter_dict_eq. repeat case_bool_decide; by simplify_map_eq.
Qed.

(** C7: a field whose selection is empty or is ["ALL"] gets no entry in
    the filter; any other selection gets the entry [{"$in": selection}],
    categories under "category" and sub-categories under "year"; the
    filter has no other entry.  So metadata passes the filter exactly when
    each constrained field holds one of the selected values. *)
Theorem filter_dict_spec (categories sub_categories : list string) :
  let f := filter_dict categories sub_categories in
  f !! "category"
  = (if bool_decide (categories = [] ∨ categories = ["ALL"])
     then None else Some (In_ categories))
  ∧ f !! "year"
    = (if bool_decide (sub_categories = [] ∨ sub_categories = ["ALL"])
       then None else Some (In_ sub_categories))
  ∧ (∀ field, field ≠ "category" → field ≠ "year" → f !! field = None)
  ∧ (∀ md : Metadata,
       passes f md ↔
       ((categories = [] ∨ categories = ["ALL"])
        ∨ ∃ v, md !! "category" = Some v ∧ v ∈ categories)
       ∧ ((sub_categories = [] ∨ sub_categories = ["ALL"])
          ∨ ∃ v, md !! "year" = Some v ∧ v ∈ sub_categories)).
Proof.
  intros f.
  pose proof (filter_dict_category categories sub_categories) as Hc.
  pose proof (filter_dict_year categories sub_categories) as Hy.
  pose proof (filter_dict_other categories sub_categories) as Ho.
  fold f in Hc, Hy, Ho.
  split_and!; try done.
  intros md. unfold passes. split.
  - intros H. split.
    + destruct (decide (categories = [] ∨ categories = ["ALL"])) as [|Hn]; [by left|].
      right. apply H. rewrite Hc. by rewrite bool_decide_eq_false_2.
    + destruct (decide (sub_categories = [] ∨ sub_categories = ["ALL"])) as [|Hn];
        [by left|].
      right. apply H. rewrite Hy. by rewrite bool_decide_eq_false_2.
  - intros [H1 H2] field values Hf.
    destruct (decide (field = "category")) as [->|Hn1].
    { rewrite Hc in Hf. case_bool_decide; [done|]. simplify_eq.
      destruct H1 as [?|?]; [tauto|done]. }
    destruct (decide (field = "year")) as [->|Hn2].
    { rewrite Hy in Hf. case_bool_decide; [done|]. simplify_eq.
      destruct H2 as [?|?]; [tauto|done]. }
    by rewrite Ho in Hf.
Qed.

(** C10: a selection that holds "ALL" and some other value is not the
    selection ["ALL"]: the filter gets the entry [{"$in": selection}] for
    its field, "ALL" being one of the listed values. *)
Theorem filter_dict_ALL_among_others (selection other : list string) :
  "ALL" ∈ selection →
  (∃ v, v ∈ selection ∧ v ≠ "ALL") →
  filter_dict selection other !! "category" = Some (In_ selection)
  ∧ filter_dict other selection !! "year" = Some (In_ selection).
Proof.
  intros HALL (v & Hv & Hne).
  assert (Hn : ¬ (selection = [] ∨ selection = ["ALL"])).
  { intros [->| ->]; [by apply elem_of_nil in Hv|].
    apply list_elem_of_singleton in Hv. done. }
  rewrite filter_dict_category, filter_dict_year.
  by rewrite bool_decide_eq_false_2.
Qed.

(** ** The question form and the chain *)

Section QueryProperties.

Variable Encoder : Type.
Variable vs_get_relevant_documents :
  Vectorstore Encoder -> string -> Filter -> Result (list Document).
Variable llm : string -> Prompt -> Result string.

Abbreviation chain := (create_chatbot_retrieval_qa Encoder vs_get_relevant_documents llm).
Abbreviation submit := (chatbot_page_submit Encoder vs_get_relevant_documents llm).

(** One run of the chain: the retriever is called with the question as
    given, then the model with the prompt slots. *)
Lemma chain_run main_query additional_note vs categories sub_categories
  model_name x w :
  chain main_query additional_note vs categories sub_categories model_name x w
  = match vs_get_relevant_documents vs (in_main_question x)
            (filter_dict categories sub_categories) with
    | Ok docs =>
        (llm model_name
           (mkPrompt docs (in_main_question x) (in_additional_note x)),
         mkWorld (bm25_file w)
           (trace w
            ++ [get_relevant_documents (in_main_question x)
                  (filter_dict categories sub_categories);
                llm_invoke model_name
                  (mkPrompt docs (in_main_question x) (in_additional_note x))]))
    | Raise =>
        (Raise,
         mkWorld (bm25_file w)
           (trace w
            ++ [get_relevant_documents (in_main_question x)
                  (filter_dict categories sub_categories)]))
    end.
Proof.
  unfold create_chatbot_retrieval_qa, filtered_retriever, bind.
  rewrite call_eq.
  destruct (vs_get_relevant_documents vs _ _) as [docs|]; [|done].
  unfold debug_print_context. rewrite call_eq. simpl.
  by rewrite <- app_assoc.
Qed.

(** A request that passes both checks calls the retriever once, first,
    with the question as typed. *)
Lemma submit_accepted vs main_query additional_note categories
  sub_categories selected_model w :
  main_query ≠ "" → ¬ (categories = [] ∧ sub_categories = []) →
  ∃ rest,
    trace (snd (submit vs main_query additional_note categories
                  sub_categories selected_model w))
    = trace w
      ++ get_relevant_documents main_query
           (filter_dict categories sub_categories) :: rest
    ∧ Forall (fun e => ¬ is_retrieval e) rest.
Proof.
  intros Hq Hsel. unfold chatbot_page_submit.
  assert (Py.truthy_str main_query = true) as ->.
  { by destruct main_query. }
  assert (negb (Py.truthy categories) && negb (Py.truthy sub_categories) = false)
    as ->.
  { destruct categories, sub_categories; simpl; try done. naive_solver. }
  cbn [negb]. unfold try_except, bind. cbv beta iota zeta.
  rewrite chain_run. simpl.
  destruct (vs_get_relevant_documents _ _ _) as [docs|]; simpl.
  - destruct (llm _ _) as [r|]; simpl.
    + eexists. rewrite <- !app_assoc. split; [done|].
      repeat constructor; simpl; tauto.
    + eexists. rewrite <- !app_assoc. split; [done|].
      repeat constructor; simpl; tauto.
  - eexists. rewrite <- !app_assoc. split; [done|].
    repeat constructor; simpl; tauto.
Qed.

(** C6: a request with an empty question, or with both selections empty,
    is answered by a warning and nothing else: no retrieval and no
    generation call is made and the state is unchanged.  Every other
    request goes on to the retriever. *)
Theorem submit_validation vs main_query additional_note categories
  sub_categories selected_model w :
  let run := submit vs main_query additional_note categories sub_categories
               selected_model w in
  (main_query = "" ∨ (categories = [] ∧ sub_categories = []) →
   ∃ warning,
     run = (Ok tt, mkWorld (bm25_file w) (trace w ++ [st_warning warning])))
  ∧ (¬ (main_query = "" ∨ (categories = [] ∧ sub_categories = [])) →
     ∃ rest,
       trace (snd run)
       = trace w
         ++ get_relevant_documents main_query
              (filter_dict categories sub_categories) :: rest).
Proof.
  intros run. split.
  - intros H. unfold run, chatbot_page_submit.
    destruct main_query as [|c q]; simpl; [by eexists|].
    destruct H as [|[-> ->]]; [done|]. simpl. by eexists.
  - intros H.
    destruct (submit_accepted vs main_query additional_note categories
                sub_categories selected_model w) as (rest & Hrest & _);
      [tauto..|].
    by exists rest.
Qed.

(** C9 (amended): the result of a successful query is the generated text
    and nothing more: the retriever returned some documents, the model
    was called on the prompt holding them, and the chain returns the
    model's text as it is. *)
Theorem chain_returns_generated_text main_query additional_note vs
  categories sub_categories model_name x w response w' :
  chain main_query additional_note vs categories sub_categories model_name x w
  = (Ok response, w') →
  ∃ docs,
    let p := mkPrompt docs (in_main_question x) (in_additional_note x) in
    vs_get_relevant_documents vs (in_main_question x)
      (filter_dict categories sub_categories) = Ok docs
    ∧ llm model_name p = Ok response
    ∧ w' = mkWorld (bm25_file w)
             (trace w ++ [get_relevant_documents (in_main_question x)
                            (filter_dict categories sub_categories);
                          llm_invoke model_name p]).
Proof.
  rewrite chain_run. simpl.
  destruct (vs_get_relevant_documents _ _ _) as [docs|]; [|done].
  intros [= Hr <-]. by exists docs.
Qed.

End QueryProperties.

(** C8 (code defect): the question goes to the retriever as typed.
    [preprocess_text] is applied to chunks at indexing time only, so for a
    question that normalisation would change, the one retrieval call of
    the request carries the unnormalised text. *)
Theorem question_is_not_normalized normalize word_tokenize (Encoder : Type)
  vs_get_relevant_documents llm (vs : Vectorstore Encoder)
  main_query additional_note categories sub_categories selected_model w :
  main_query ≠ "" → ¬ (categories = [] ∧ sub_categories = []) →
  preprocess_text normalize word_tokenize main_query ≠ main_query →
  ∃ rest,
    trace (snd (chatbot_page_submit Encoder vs_get_relevant_documents llm vs
                  main_query additional_note categories sub_categories
                  selected_model w))
    = trace w
      ++ get_relevant_documents main_query
           (filter_dict categories sub_categories) :: rest
    ∧ ∀ f, get_relevant_documents
             (preprocess_text normalize word_tokenize main_query) f
           ∉ get_relevant_documents main_query
               (filter_dict categories sub_categories) :: rest.
Proof.
  intros Hq Hsel Hnorm.
  destruct (submit_accepted Encoder vs_get_relevant_documents llm vs main_query
              additional_note categories sub_categories selected_model w)
    as (rest & Hrest & Hno); [done..|].
  exists rest. split; [done|].
  intros f [Heq|Hin]%elem_of_cons.
  - by injection Heq.
  - rewrite Forall_forall in Hno. by apply Hno in Hin.
Qed.

(** ** The windows of the splitter never exceed [chunk_size] *)

Section SplitterBound.

Import RecursiveCharacterTextSplitter.

Variables (chunk_size chunk_overlap : Z).
Hypothesis chunk_size_pos : 1 <= chunk_size.

Abbreviation fits := (fun s : string => Py.len s <= chunk_size).

Lemma sum_len_nonneg l : 0 <= sum_len l.
Proof.
  induction l as [|s l IH]; simpl; [lia|]. pose proof (len_nonneg s). lia.
Qed.

Lemma sum_len_app l1 l2 : sum_len (l1 ++ l2) = sum_len l1 + sum_len l2.
Proof. induction l1 as [|s l1 IH]; simpl; lia. Qed.

Lemma len_join_empty l : Py.len (Py.join "" l) = sum_len l.
Proof.
  induction l as [|s l IH]; [done|].
  destruct l as [|s' l].
  - simpl. lia.
  - change (Py.join "" (s :: s' :: l)) with (s +:+ "" +:+ Py.join "" (s' :: l)).
    rewrite !len_append, IH. simpl. change (Py.len "") with 0. lia.
Qed.

Lemma append_doc_fits docs current_doc :
  Forall fits docs → sum_len current_doc <= chunk_size →
  Forall fits (append_doc docs (_join_docs current_doc "")).
Proof.
  intros Hdocs Hsum. unfold _join_docs.
  destruct (Py.truthy_str _); simpl; [|done].
  apply Forall_app. split; [done|]. apply Forall_singleton.
  pose proof (len_strip (Py.join "" current_doc)).
  rewrite len_join_empty in *. lia.
Qed.

(** After the inner loop the pieces kept and the next piece fit together. *)
Lemma pop_front_spec _len current_doc total cd' t' :
  pop_front chunk_size chunk_overlap 0 _len current_doc total = (cd', t') →
  total = sum_len current_doc →
  t' = sum_len cd' ∧ (t' = 0 ∨ t' + _len <= chunk_size).
Proof.
  revert total. induction current_doc as [|d0 rest IH]; intros total; simpl.
  - intros [= <- <-] ->. by auto.
  - destruct (_ || _) eqn:Hcond.
    + intros Hpop ->. apply (IH _ Hpop).
      destruct (Py.truthy rest); lia.
    + intros [= <- <-] Htot. split; [done|].
      apply orb_false_iff in Hcond as [_ Hc].
      pose proof (sum_len_nonneg (d0 :: rest)). simpl in *.
      apply andb_false_iff in Hc as [Hc|Hc]; [apply Z.ltb_ge in Hc|apply Z.ltb_ge in Hc];
        lia.
Qed.

Lemma merge_loop_fits splits docs current_doc total :
  Forall fits splits → Forall fits docs →
  total = sum_len current_doc → total <= chunk_size →
  Forall fits (merge_loop chunk_size chunk_overlap "" splits docs current_doc total).
Proof.
  revert docs current_doc total.
  induction splits as [|d splits IH]; intros docs current_doc total Hs Hdocs Htot Hle.
  - simpl. apply append_doc_fits; [done|lia].
  - apply Forall_cons in Hs as [Hd Hs].
    cbn [merge_loop]. change (Py.len "") with 0.
    destruct (_ && _) eqn:Hcond.
    + destruct (pop_front _ _ _ _ _ _) as [cd' t'] eqn:Hpop.
      apply pop_front_spec in Hpop as [Ht' Hfit]; [|done].
      apply IH; [done | | |].
      * apply append_doc_fits; [done|lia].
      * rewrite sum_len_app. simpl.
        destruct (1 <? _); lia.
      * destruct (1 <? _); lia.
    + apply IH; [done | done | |].
      * rewrite sum_len_app. simpl. destruct (1 <? _); lia.
      * apply andb_false_iff in Hcond as [Hc|Hc].
        -- apply Z.ltb_ge in Hc. destruct (Py.truthy current_doc), (1 <? _); lia.
        -- apply truthy_false in Hc. subst. simpl in *. lia.
Qed.

Lemma merge_splits_fits splits :
  Forall fits splits → Forall fits (_merge_splits chunk_size chunk_overlap splits "").
Proof.
  intros H. unfold _merge_splits.
  apply merge_loop_fits; [done | done | done | lia].
Qed.

(** The outer loop, given that a piece which is not shorter than
    [chunk_size] is either split further into fitting windows or is
    itself no longer than [chunk_size]. *)
Lemma split_loop_fits recur splits _good_splits final_chunks :
  match recur with
  | Some f => ∀ s, Forall fits (f s)
  | None => Forall fits splits
  end →
  Forall fits _good_splits → Forall fits final_chunks →
  Forall fits (split_loop chunk_size chunk_overlap recur splits _good_splits
                 final_chunks).
Proof.
  revert _good_splits final_chunks.
  induction splits as [|s splits IH]; intros good final Hrec Hgood Hfinal; simpl.
  - destruct (Py.truthy good); [|done].
    apply Forall_app. split; [done|]. by apply merge_splits_fits.
  - assert (Hrec' : match recur with
                    | Some f => ∀ s, Forall fits (f s)
                    | None => Forall fits splits
                    end).
    { destruct recur; [done|]. by apply Forall_cons in Hrec as [_ ?]. }
    destruct (Py.len s <? chunk_size) eqn:Hlt.
    + apply IH; [done | | done].
      apply Forall_app. split; [done|]. apply Forall_singleton.
      apply Z.ltb_lt in Hlt. lia.
    + apply IH; [done | done |].
      assert (Hmerged : Forall fits
                (if Py.truthy good
                 then final ++ _merge_splits chunk_size chunk_overlap good ""
                 else final)).
      { destruct (Py.truthy good); [|done].
        apply Forall_app. split; [done|]. by apply merge_splits_fits. }
      destruct recur as [f|].
      * apply Forall_app. split; [done|]. apply Hrec.
      * apply Forall_app. split; [done|]. apply Forall_singleton.
        by apply Forall_cons in Hrec as [? _].
Qed.

Lemma chars_fit text : Forall fits (Py.chars text).
Proof.
  induction text as [|c text IH]; simpl; constructor; [|done].
  rewrite len_String. change (Py.len "") with 0. lia.
Qed.

Lemma split_text_with_regex_chars text :
  Forall fits (_split_text_with_regex text "").
Proof.
  unfold _split_text_with_regex. simpl.
  pose proof (chars_fit text) as H. rewrite Forall_forall in *.
  intros s [_ Hs]%list_elem_of_filter. by apply H.
Qed.

(** With the empty separator among the separators every window fits. *)
Lemma _split_text_fits separators text :
  "" ∈ separators →
  Forall fits (_split_text chunk_size chunk_overlap separators text).
Proof.
  revert text. induction separators as [|_s new_separators IH]; intros text Hin.
  - by apply elem_of_nil in Hin.
  - cbn [_split_text].
    destruct (Py.truthy_str _s) eqn:Hs; simpl negb; cbv iota.
    + assert (Hin' : "" ∈ new_separators).
      { apply elem_of_cons in Hin as [<-|?]; done. }
      destruct new_separators as [|s' seps']; [by apply elem_of_nil in Hin'|].
      destruct (Py.contains _s text).
      * apply split_loop_fits; [|done..]. simpl. intros s. by apply IH.
      * by apply IH.
    + apply truthy_str_false in Hs as ->.
      apply split_loop_fits; [|done..]. apply split_text_with_regex_chars.
Qed.

Lemma split_text_fits text w :
  w ∈ split_text chunk_size chunk_overlap text → Py.len w <= chunk_size.
Proof.
  intros Hw. pose proof (_split_text_fits separators text) as H.
  rewrite Forall_forall in H. apply H; [|done].
  unfold separators. set_solver.
Qed.

End SplitterBound.

(** ** The windows of a text without white space *)

Lemma append_cons (c : ascii) (s t : string) :
  String c s +:+ t = String c (s +:+ t).
Proof. reflexivity. Qed.

Lemma append_empty_r (s : string) : s +:+ "" = s.
Proof. induction s as [|c s IH]; [done|]. by rewrite append_cons, IH. Qed.

Lemma append_assoc (s t u : string) : (s +:+ t) +:+ u = s +:+ t +:+ u.
Proof. induction s as [|c s IH]; [done|]. by rewrite !append_cons, IH. Qed.

Lemma chars_append (s t : string) : Py.chars (s +:+ t) = Py.chars s ++ Py.chars t.
Proof. induction s as [|c s IH]; [done|]. rewrite append_cons. simpl. by rewrite IH. Qed.

Lemma join_chars (s : string) : Py.join "" (Py.chars s) = s.
Proof.
  induction s as [|c s IH]; [done|].
  destruct s as [|c' s]; [done|].
  change (Py.chars (String c (String c' s)))
    with (String c "" :: Py.chars (String c' s)).
  change (Py.join "" (String c "" :: Py.chars (String c' s)))
    with (String c "" +:+ "" +:+ Py.join "" (Py.chars (String c' s))).
  by rewrite IH.
Qed.

Lemma whitespace_free_append (s t : string) :
  whitespace_free (s +:+ t) = whitespace_free s && whitespace_free t.
Proof.
  induction s as [|c s IH]; [done|].
  rewrite append_cons. simpl. rewrite IH. by rewrite andb_assoc.
Qed.

Lemma rstrip_whitespace_free (s : string) :
  whitespace_free s = true → Py.rstrip s = s.
Proof.
  induction s as [|c s IH]; [done|]. simpl.
  intros [Hc Hs]%andb_true_iff. rewrite (IH Hs).
  destruct s; [|done]. by destruct (Py.isspace c).
Qed.

Lemma strip_whitespace_free (s : string) :
  whitespace_free s = true → Py.strip s = s.
Proof.
  intros H. unfold Py.strip.
  assert (Py.lstrip s = s) as ->.
  { destruct s as [|c s]; [done|]. simpl in *.
    by destruct (Py.isspace c). }
  by apply rstrip_whitespace_free.
Qed.

(** A separator that starts with a white-space character does not occur in
    a text without white space. *)
Lemma contains_whitespace_free (c : ascii) (sep text : string) :
  Py.isspace c = true → whitespace_free text = true →
  Py.contains (String c sep) text = false.
Proof.
  intros Hc. induction text as [|c' text IH]; [done|].
  simpl. intros [Hc' Ht]%andb_true_iff. rewrite (IH Ht), orb_false_r.
  destruct (ascii_dec c c') as [->|]; [|done].
  by rewrite Hc in Hc'.
Qed.

Lemma split_text_with_regex_empty (text : string) :
  RecursiveCharacterTextSplitter._split_text_with_regex text "" = Py.chars text.
Proof.
  unfold RecursiveCharacterTextSplitter._split_text_with_regex. simpl.
  induction text as [|c text IH]; [done|]. simpl.
  rewrite filter_cons_True by done. by rewrite IH.
Qed.

Lemma append_empty_l (s : string) : "" +:+ s = s.
Proof. reflexivity. Qed.

Lemma substring_prefix (m : nat) (b c : string) :
  String.length b = m → substring 0 m (b +:+ c) = b.
Proof.
  intros <-. induction b as [|y b IH].
  - rewrite append_empty_l. by destruct c.
  - rewrite append_cons. simpl. by rewrite IH.
Qed.

Lemma substring_middle (n m : nat) (a b c : string) :
  String.length a = n → String.length b = m →
  substring n m (a +:+ b +:+ c) = b.
Proof.
  intros <- Hb. induction a as [|x a IH].
  - rewrite append_empty_l. by apply substring_prefix.
  - rewrite append_cons. simpl. apply IH.
Qed.

Lemma split_at (n : nat) (s : string) :
  (n ≤ String.length s)%nat →
  ∃ a b, s = a +:+ b ∧ String.length a = n.
Proof.
  revert s. induction n as [|n IH]; intros s Hn.
  - by exists "", s.
  - destruct s as [|c s]; simpl in Hn; [lia|].
    destruct (IH s) as (a & b & -> & Ha); [lia|].
    exists (String c a), b. split; [done|]. simpl. by rewrite Ha.
Qed.

Lemma length_append (s t : string) :
  String.length (s +:+ t) = (String.length s + String.length t)%nat.
Proof. induction s as [|c s IH]; [done|]. rewrite append_cons. simpl. by rewrite IH. Qed.

Lemma if_same {A} (b : bool) (x : A) : (if b then x else x) = x.
Proof. by destruct b. Qed.

Section HardCut.

Import RecursiveCharacterTextSplitter.

Variables (chunk_size chunk_overlap : Z).
Hypothesis overlap_range : 0 <= chunk_overlap < chunk_size.

Lemma join_docs_chars (s : string) :
  whitespace_free s = true → s ≠ "" →
  _join_docs (Py.chars s) "" = Some s.
Proof.
  intros Hs Hne. unfold _join_docs.
  rewrite join_chars, strip_whitespace_free by done.
  by destruct s.
Qed.

(** The inner loop on one-character pieces keeps the last
    [chunk_overlap] characters. *)
Lemma pop_front_chars (a b : string) :
  Py.len b = chunk_overlap →
  pop_front chunk_size chunk_overlap 0 1 (Py.chars (a +:+ b))
    (Py.len a + Py.len b)
  = (Py.chars b, chunk_overlap).
Proof.
  intros Hb. induction a as [|c a IH].
  - rewrite append_empty_l. change (Py.len "") with 0.
    destruct b as [|c b]; simpl.
    + f_equal. lia.
    + assert ((chunk_overlap <? 0 + Py.len (String c b))
              || (chunk_size <? 0 + Py.len (String c b) + 1 + 0)
                 && (0 <? 0 + Py.len (String c b)) = false) as ->.
      { apply orb_false_iff. split; [apply Z.ltb_ge; lia|].
        apply andb_false_iff. left. apply Z.ltb_ge. lia. }
      f_equal. lia.
  - rewrite append_cons. simpl Py.chars. cbn [pop_front].
    pose proof (len_nonneg a).
    assert ((chunk_overlap <? Py.len (String c a) + Py.len b) = true) as ->.
    { apply Z.ltb_lt. rewrite len_String. lia. }
    simpl orb. cbv iota. rewrite if_same, <- IH. f_equal.
    rewrite !len_String. change (Py.len "") with 0. lia.
Qed.

(** Pieces are added to the window as long as they fit. *)
Lemma merge_accumulate (v : string) rest docs (u : string) :
  Py.len u + Py.len v <= chunk_size →
  merge_loop chunk_size chunk_overlap "" (Py.chars v ++ rest) docs
    (Py.chars u) (Py.len u)
  = merge_loop chunk_size chunk_overlap "" rest docs
      (Py.chars (u +:+ v)) (Py.len (u +:+ v)).
Proof.
  revert u. induction v as [|c v IH]; intros u Hle.
  - by rewrite append_empty_r.
  - simpl Py.chars. rewrite <- app_comm_cons. cbn [merge_loop].
    change (Py.len "") with 0. rewrite !if_same.
    rewrite len_String in Hle. pose proof (len_nonneg v).
    assert ((chunk_size <? Py.len u + Py.len (String c "") + 0) = false) as ->.
    { apply Z.ltb_ge. rewrite len_String. change (Py.len "") with 0. lia. }
    simpl andb. cbv iota.
    replace (Py.chars u ++ [String c ""]) with (Py.chars (u +:+ String c ""))
      by (by rewrite chars_append).
    rewrite !if_same.
    replace (Py.len u + Py.len (String c "") + 0)
      with (Py.len (u +:+ String c "")) by (rewrite len_append; lia).
    rewrite IH.
    + by rewrite append_assoc.
    + rewrite len_append, len_String. change (Py.len "") with 0. lia.
Qed.

(** A piece that no longer fits closes the window; the next window starts
    with the last [chunk_overlap] characters of the closed one. *)
Lemma merge_overflow (c : ascii) rest docs (a b : string) :
  Py.len a + Py.len b = chunk_size → Py.len b = chunk_overlap →
  merge_loop chunk_size chunk_overlap "" (String c "" :: rest) docs
    (Py.chars (a +:+ b)) (Py.len (a +:+ b))
  = merge_loop chunk_size chunk_overlap "" rest
      (append_doc docs (_join_docs (Py.chars (a +:+ b)) ""))
      (Py.chars (b +:+ String c "")) (Py.len (b +:+ String c "")).
Proof.
  intros Hab Hb. cbn [merge_loop]. change (Py.len "") with 0.
  rewrite !if_same. rewrite len_append, Hab.
  change (Py.len (String c "")) with 1.
  assert ((chunk_size <? chunk_size + 1 + 0) = true) as ->
    by (apply Z.ltb_lt; lia).
  assert (Py.truthy (Py.chars (a +:+ b)) = true) as ->.
  { destruct (a +:+ b) eqn:E; [|done].
    apply (f_equal Py.len) in E. rewrite len_append in E.
    change (Py.len "") with 0 in E. lia. }
  simpl andb. cbv iota.
  rewrite <- Hab at 2. rewrite pop_front_chars by done.
  rewrite !if_same, !chars_append, len_append. simpl Py.chars.
  change (Py.len (String c "")) with 1. f_equal. lia.
Qed.

(** Pieces that are all shorter than [chunk_size] are merged in one go. *)
Lemma split_loop_short recur splits _good_splits final_chunks :
  Forall (fun s => Py.len s < chunk_size) splits →
  split_loop chunk_size chunk_overlap recur splits _good_splits final_chunks
  = if Py.truthy (_good_splits ++ splits)
    then final_chunks
         ++ _merge_splits chunk_size chunk_overlap (_good_splits ++ splits) ""
    else final_chunks.
Proof.
  revert _good_splits. induction splits as [|s splits IH]; intros good Hs.
  - by rewrite app_nil_r.
  - apply Forall_cons in Hs as [Hlt Hs]. cbn [split_loop].
    apply Z.ltb_lt in Hlt. rewrite Hlt. rewrite IH by done.
    by rewrite <- app_assoc.
Qed.

Lemma chars_short (text : string) :
  1 < chunk_size → Forall (fun s => Py.len s < chunk_size) (Py.chars text).
Proof.
  intros H. induction text as [|c text IH]; simpl; constructor; [|done].
  change (Py.len (String c "")) with 1. lia.
Qed.

(** A separator that starts with white space is passed over on a text
    without white space. *)
Lemma split_text_skip (c : ascii) (sep s' : string) seps (text : string) :
  Py.isspace c = true → whitespace_free text = true →
  _split_text chunk_size chunk_overlap (String c sep :: s' :: seps) text
  = _split_text chunk_size chunk_overlap (s' :: seps) text.
Proof.
  intros Hc Hws. cbn [_split_text]. simpl Py.truthy_str. cbn [negb].
  by rewrite contains_whitespace_free.
Qed.

(** On a text without white space no separator but the empty one
    applies: the text is cut into characters, which are merged. *)
Lemma split_text_whitespace_free (text : string) :
  1 < chunk_size → whitespace_free text = true → text ≠ "" →
  split_text chunk_size chunk_overlap text
  = merge_loop chunk_size chunk_overlap "" (Py.chars text) [] [] 0.
Proof.
  intros Hcs Hws Hne. unfold split_text, separators.
  change (nl +:+ nl) with (String "010"%char nl). unfold nl.
  rewrite !split_text_skip by done.
  cbn [_split_text]. simpl Py.truthy_str. cbn [negb].
  rewrite split_text_with_regex_empty.
  rewrite split_loop_short by by apply chars_short.
  simpl app. by destruct text.
Qed.

(** A text without white space that is three windows long: the second
    window starts with the last [chunk_overlap] characters [x2] of the
    first, the third with the last [chunk_overlap] characters [x4] of
    the second. *)
Lemma three_windows (x1 x2 x3 x4 x5 : string) :
  1 < chunk_size →
  Py.len x1 + Py.len x2 = chunk_size → Py.len x2 = chunk_overlap →
  Py.len x2 + Py.len x3 + Py.len x4 = chunk_size → Py.len x4 = chunk_overlap →
  Py.len x4 + Py.len x5 = chunk_size →
  x3 ≠ "" → x5 ≠ "" →
  whitespace_free (x1 +:+ x2 +:+ x3 +:+ x4 +:+ x5) = true →
  split_text chunk_size chunk_overlap (x1 +:+ x2 +:+ x3 +:+ x4 +:+ x5)
  = [x1 +:+ x2; x2 +:+ x3 +:+ x4; x4 +:+ x5].
Proof.
  intros Hcs H12 H2 H234 H4 H45 Hx3 Hx5 Hws.
  pose proof (len_nonneg x1). pose proof (len_nonneg x3).
  pose proof (len_nonneg x5).
  assert (Hne : x1 +:+ x2 +:+ x3 +:+ x4 +:+ x5 ≠ "").
  { intros E. apply (f_equal Py.len) in E. rewrite !len_append in E.
    change (Py.len "") with 0 in E.
    destruct x3; [done|]. rewrite len_String in *. lia. }
  rewrite split_text_whitespace_free by done.
  rewrite !whitespace_free_append in Hws.
  apply andb_true_iff in Hws as [W1 Hws]. apply andb_true_iff in Hws as [W2 Hws].
  apply andb_true_iff in Hws as [W3 Hws]. apply andb_true_iff in Hws as [W4 W5].
  (* first window *)
  rewrite <- (append_assoc x1 x2), chars_append.
  change (merge_loop chunk_size chunk_overlap "" ?s [] [] 0)
    with (merge_loop chunk_size chunk_overlap "" s [] (Py.chars "") (Py.len "")).
  rewrite merge_accumulate
    by (change (Py.len "") with 0; rewrite len_append; lia).
  rewrite append_empty_l.
  destruct x3 as [|c3 x3]; [done|]. rewrite len_String in *.
  rewrite append_cons. simpl Py.chars.
  rewrite merge_overflow by done.
  rewrite join_docs_chars.
  2:{ by rewrite whitespace_free_append, W1, W2. }
  2:{ intros E. apply (f_equal Py.len) in E. rewrite len_append in E.
      change (Py.len "") with 0 in E. lia. }
  (* second window *)
  rewrite <- (append_assoc x3 x4), chars_append.
  rewrite merge_accumulate
    by (rewrite !len_append, len_String; change (Py.len "") with 0; lia).
  replace ((x2 +:+ String c3 "") +:+ x3 +:+ x4)
    with ((x2 +:+ String c3 x3) +:+ x4)
    by (by rewrite !append_assoc).
  destruct x5 as [|c5 x5]; [done|]. rewrite len_String in *.
  simpl Py.chars.
  rewrite merge_overflow by (rewrite ?len_append, ?len_String; lia).
  rewrite join_docs_chars.
  2:{ rewrite !whitespace_free_append, W2, W4. simpl in *. by rewrite W3. }
  2:{ intros E. apply (f_equal Py.len) in E. rewrite !len_append, len_String in E.
      change (Py.len "") with 0 in E. lia. }
  (* third window *)
  rewrite <- (app_nil_r (Py.chars x5)).
  rewrite merge_accumulate
    by (rewrite !len_append, len_String; change (Py.len "") with 0; lia).
  cbn [merge_loop].
  rewrite join_docs_chars.
  2:{ rewrite !whitespace_free_append, W4. simpl in *.
      by apply andb_true_iff in W5 as [-> ->]. }
  2:{ intros E. apply (f_equal Py.len) in E. rewrite !len_append, len_String in E.
      change (Py.len "") with 0 in E. lia. }
  simpl append_doc. by rewrite !append_assoc.
Qed.

End HardCut.

(** C2 (amended): every chunk is the normalisation of a window of the
    splitter, and it is the window, not the normalised content, that has
    at most [CHUNK_SIZE] characters. *)
Theorem chunk_is_normalized_window normalize word_tokenize docs chunk :
  chunk ∈ split_documents normalize word_tokenize
            RecursiveCharacterTextSplitter.split_text docs →
  ∃ doc w,
    doc ∈ docs
    ∧ w ∈ RecursiveCharacterTextSplitter.split_text CHUNK_SIZE CHUNK_OVERLAP
            (content doc)
    ∧ Py.len w <= CHUNK_SIZE
    ∧ content chunk = preprocess_text normalize word_tokenize w
    ∧ metadata chunk = metadata doc.
Proof.
  rewrite split_documents_spec. intros H.
  apply elem_of_all_chunks_from in H as (doc & w & Hd & Hw & Hc & Hm).
  exists doc, w. split_and!; try done.
  apply (split_text_fits CHUNK_SIZE CHUNK_OVERLAP) in Hw; [done|].
  unfold CHUNK_SIZE. lia.
Qed.

(** C3 (amended): a text of 2600 characters without white space is cut
    into exactly three windows, the characters 0-1199, 700-1899 and
    1400-2599 of the text: each has 1200 characters and shares its last
    500 characters with the start of the next.  [split_documents] makes
    of them three chunks with the ids 1, 2, 3, whose contents are the
    normalised windows. *)
Theorem split_2600_whitespace_free normalize word_tokenize
  (text : string) (md : Metadata) :
  Py.len text = 2600 → whitespace_free text = true →
  let splitter := RecursiveCharacterTextSplitter.split_text in
  let w0 := substring 0 1200 text in
  let w1 := substring 700 1200 text in
  let w2 := substring 1400 1200 text in
  splitter CHUNK_SIZE CHUNK_OVERLAP text = [w0; w1; w2]
  ∧ (Py.len w0 = 1200 ∧ Py.len w1 = 1200 ∧ Py.len w2 = 1200)
  ∧ (substring 700 500 w0 = substring 0 500 w1
     ∧ substring 700 500 w1 = substring 0 500 w2)
  ∧ split_documents normalize word_tokenize splitter [mkDoc None text md]
    = [mkDoc (Some 1) (preprocess_text normalize word_tokenize w0) md;
       mkDoc (Some 2) (preprocess_text normalize word_tokenize w1) md;
       mkDoc (Some 3) (preprocess_text normalize word_tokenize w2) md].
Proof.
  intros Hlen Hws splitter w0 w1 w2.
  assert (Hn : String.length text = 2600%nat) by (unfold Py.len in Hlen; lia).
  destruct (split_at 700 text) as (x1 & r1 & E1 & L1); [lia|].
  rewrite E1, length_append in Hn.
  destruct (split_at 500 r1) as (x2 & r2 & E2 & L2); [lia|].
  rewrite E2, length_append in Hn.
  destruct (split_at 200 r2) as (x3 & r3 & E3 & L3); [lia|].
  rewrite E3, length_append in Hn.
  destruct (split_at 500 r3) as (x4 & x5 & E4 & L4); [lia|].
  rewrite E4, length_append in Hn.
  assert (L5 : String.length x5 = 700%nat) by lia.
  assert (Etext : text = x1 +:+ x2 +:+ x3 +:+ x4 +:+ x5) by (by subst).
  clear E1 E2 E3 E4 Hn Hlen.
  assert (E0 : w0 = x1 +:+ x2).
  { unfold w0. rewrite Etext, <- (append_assoc x1 x2).
    apply substring_prefix. rewrite length_append. lia. }
  assert (E1 : w1 = x2 +:+ x3 +:+ x4).
  { unfold w1. rewrite Etext.
    replace (x2 +:+ x3 +:+ x4 +:+ x5) with ((x2 +:+ x3 +:+ x4) +:+ x5)
      by (by rewrite !append_assoc).
    apply substring_middle; rewrite ?length_append; lia. }
  assert (E2 : w2 = x4 +:+ x5).
  { unfold w2. rewrite Etext.
    replace (x1 +:+ x2 +:+ x3 +:+ x4 +:+ x5)
      with ((x1 +:+ x2 +:+ x3) +:+ (x4 +:+ x5) +:+ "")
      by (by rewrite !append_assoc, append_empty_r).
    apply substring_middle; rewrite ?length_append; lia. }
  assert (Hsplit : splitter CHUNK_SIZE CHUNK_OVERLAP text = [w0; w1; w2]).
  { rewrite E0, E1, E2, Etext. unfold splitter.
    apply three_windows; unfold CHUNK_SIZE, CHUNK_OVERLAP, Py.len;
      try lia; try (by rewrite <- Etext).
    - intros ->. simpl in L3. lia.
    - intros ->. simpl in L5. lia. }
  split_and!.
  - done.
  - rewrite E0. unfold Py.len. rewrite length_append. lia.
  - rewrite E1. unfold Py.len. rewrite !length_append. lia.
  - rewrite E2. unfold Py.len. rewrite length_append. lia.
  - rewrite E0, E1.
    transitivity x2.
    + replace (x1 +:+ x2) with (x1 +:+ x2 +:+ "") by (by rewrite append_empty_r).
      by apply substring_middle.
    + symmetry. by apply substring_prefix.
  - rewrite E1, E2.
    transitivity x4.
    + replace (x2 +:+ x3 +:+ x4) with ((x2 +:+ x3) +:+ x4 +:+ "")
        by (by rewrite append_assoc, append_empty_r).
      apply substring_middle; rewrite ?length_append; lia.
    + symmetry. by apply substring_prefix.
  - rewrite split_documents_spec. simpl. fold splitter. rewrite Hsplit.
    by rewrite app_nil_r.
Qed.

(** ** The claims on concrete inputs *)

Lemma short_chunk_is_indexed_witness :
  let doc := mkDoc None "abc" ∅ in
  ∃ chunk,
    chunk ∈ split_documents Scenario.normalize Scenario.word_tokenize
              RecursiveCharacterTextSplitter.split_text [doc]
    ∧ content chunk = "abc"
    ∧ is_valid_doc chunk = false
    ∧ ∃ texts metadatas,
        add_texts texts metadatas
        ∈ trace (snd (process_document Scenario.normalize Scenario.word_tokenize
                        RecursiveCharacterTextSplitter.split_text
                        Scenario.Encoder Scenario.bm25_fit Scenario.bm25_parse
                        Scenario.bm25_serialize Scenario.vs_add_texts
                        doc Scenario.world0))
        ∧ content chunk ∈ texts.
Proof.
  intros doc.
  apply (short_chunk_is_indexed Scenario.normalize Scenario.word_tokenize
           RecursiveCharacterTextSplitter.split_text
           Scenario.Encoder Scenario.bm25_fit Scenario.bm25_parse
           Scenario.bm25_serialize Scenario.vs_add_texts
           doc "abc" Scenario.world0).
  - vm_compute. apply list_elem_of_here.
  - vm_compute. reflexivity.
  - intros c Hc. discriminate Hc.
Defined.

(** C2 (counterexample): one window of 1200 characters, 600 times "(a",
    becomes a chunk whose content, once the brackets are tokens of their
    own, has 2399 characters. *)
Lemma normalized_chunk_exceeds_chunk_size :
  ∃ chunk,
    chunk ∈ split_documents Scenario.normalize Scenario.word_tokenize
              RecursiveCharacterTextSplitter.split_text
              [mkDoc None Scenario.brackets_1200 ∅]
    ∧ Py.len (content chunk) = 2399
    ∧ ¬ Py.len (content chunk) <= CHUNK_SIZE.
Proof.
  exists (mkDoc (Some 1)
            (preprocess_text Scenario.normalize Scenario.word_tokenize
               Scenario.brackets_1200) ∅).
  split_and!.
  - vm_compute. apply list_elem_of_here.
  - vm_compute. reflexivity.
  - vm_compute. intros H. apply H. reflexivity.
Qed.

Lemma chunk_is_normalized_window_witness :
  ∃ doc w,
    doc ∈ [mkDoc None Scenario.brackets_1200 ∅]
    ∧ w ∈ RecursiveCharacterTextSplitter.split_text CHUNK_SIZE CHUNK_OVERLAP
            (content doc)
    ∧ Py.len w <= CHUNK_SIZE
    ∧ preprocess_text Scenario.normalize Scenario.word_tokenize
        Scenario.brackets_1200
      = preprocess_text Scenario.normalize Scenario.word_tokenize w
    ∧ (∅ : Metadata) = metadata doc.
Proof.
  apply (chunk_is_normalized_window Scenario.normalize Scenario.word_tokenize
           [mkDoc None Scenario.brackets_1200 ∅]
           (mkDoc (Some 1)
              (preprocess_text Scenario.normalize Scenario.word_tokenize
                 Scenario.brackets_1200) ∅)).
  vm_compute. apply list_elem_of_here.
Defined.

(** C3 (counterexample): a text of 2600 characters in seven lines gives
    three windows, but the first two share the 399 letters of the third
    line, not 500 characters; and the ids of three chunks are 1, 2, 3,
    not 0, 1, 2. *)
Lemma split_2600_counterexample :
  Py.len Scenario.seven_lines = 2600
  ∧ (∃ w0 w1 w2,
       RecursiveCharacterTextSplitter.split_text CHUNK_SIZE CHUNK_OVERLAP
         Scenario.seven_lines = [w0; w1; w2]
       ∧ substring (String.length w0 - 500) 500 w0 ≠ substring 0 500 w1
       ∧ substring (String.length w0 - 399) 399 w0 = substring 0 399 w1
       ∧ substring (String.length w0 - 400) 400 w0 ≠ substring 0 400 w1)
  ∧ map id (split_documents Scenario.normalize Scenario.word_tokenize
              RecursiveCharacterTextSplitter.split_text
              [mkDoc None Scenario.letters_2600 ∅])
    = [Some 1; Some 2; Some 3].
Proof.
  split_and!.
  - vm_compute. reflexivity.
  - eexists _, _, _. split_and!.
    + vm_compute. reflexivity.
    + apply String.eqb_neq. vm_compute. reflexivity.
    + vm_compute. reflexivity.
    + apply String.eqb_neq. vm_compute. reflexivity.
  - vm_compute. reflexivity.
Qed.

Lemma split_2600_whitespace_free_witness :
  RecursiveCharacterTextSplitter.split_text CHUNK_SIZE CHUNK_OVERLAP
    Scenario.letters_2600
  = [substring 0 1200 Scenario.letters_2600;
     substring 700 1200 Scenario.letters_2600;
     substring 1400 1200 Scenario.letters_2600].
Proof.
  apply (split_2600_whitespace_free Scenario.normalize Scenario.word_tokenize
           Scenario.letters_2600 ∅).
  - vm_compute. reflexivity.
  - vm_compute. reflexivity.
Defined.

Lemma init_refits_over_existing_state_witness :
  initialize_chatbot Scenario.Encoder Scenario.bm25_fit Scenario.bm25_parse
    Scenario.bm25_serialize 60 (mkWorld (Some "") [])
  = (Ok (mkVectorstore Scenario.Encoder ["placeholder text"] 60),
     mkWorld (Some "placeholder text") [BM25_load; BM25_fit ["placeholder text"]; BM25_dump]).
Proof.
  apply (init_refits_over_existing_state Scenario.Encoder Scenario.bm25_fit
           Scenario.bm25_parse Scenario.bm25_serialize 60 "" []).
  reflexivity.
Defined.

(** C5 (counterexample): with the folders "news" and "reports" selected,
    whose sub-folders are 2023, 2024 and 2024, 2025, the value "2024"
    comes twice. *)
Lemma get_selected_subfolders_counterexample :
  get_selected_subfolders Scenario.folders ["news"; "reports"]
  = Some ["ALL"; "2023"; "2024"; "2024"; "2025"]
  ∧ get_selected_subfolders Scenario.folders ["news"; "reports"]
    ≠ Some ["ALL"; "2023"; "2024"; "2025"].
Proof.
  assert (H : get_selected_subfolders Scenario.folders ["news"; "reports"]
              = Some ["ALL"; "2023"; "2024"; "2024"; "2025"]).
  { vm_compute. reflexivity. }
  split; [done|]. rewrite H. discriminate.
Qed.

Lemma submit_validation_witness :
  (∃ warning,
     chatbot_page_submit Scenario.Encoder (Scenario.retriever "a.docx")
       Scenario.llm Scenario.vs "" "" ["news"] [] "gpt-4o" Scenario.world0
     = (Ok tt, mkWorld None [st_warning warning]))
  ∧ (∃ rest,
       trace (snd (chatbot_page_submit Scenario.Encoder
                     (Scenario.retriever "a.docx") Scenario.llm Scenario.vs
                     "question" "" ["news"] [] "gpt-4o" Scenario.world0))
       = get_relevant_documents "question" (filter_dict ["news"] []) :: rest).
Proof.
  split.
  - apply (submit_validation Scenario.Encoder (Scenario.retriever "a.docx")
             Scenario.llm Scenario.vs "" "" ["news"] [] "gpt-4o" Scenario.world0).
    left. reflexivity.
  - apply (submit_validation Scenario.Encoder (Scenario.retriever "a.docx")
             Scenario.llm Scenario.vs "question" "" ["news"] [] "gpt-4o"
             Scenario.world0).
    intros [H|[H _]]; discriminate H.
Defined.

Lemma question_is_not_normalized_witness :
  ∃ rest,
    trace (snd (chatbot_page_submit Scenario.Encoder
                  (Scenario.retriever "a.docx") Scenario.llm Scenario.vs
                  "(why)" "" ["news"] [] "gpt-4o" Scenario.world0))
    = get_relevant_documents "(why)" (filter_dict ["news"] []) :: rest
    ∧ ∀ f, get_relevant_documents "( why )" f
           ∉ get_relevant_documents "(why)" (filter_dict ["news"] []) :: rest.
Proof.
  apply (question_is_not_normalized Scenario.normalize Scenario.word_tokenize
           Scenario.Encoder (Scenario.retriever "a.docx") Scenario.llm
           Scenario.vs "(why)" "" ["news"] [] "gpt-4o" Scenario.world0).
  - discriminate.
  - intros [H _]. discriminate H.
  - vm_compute. discriminate.
Defined.

(** C9 (counterexample): two queries whose retrieved chunks come from
    different files return the same result, so no set of file names can be
    read off the result. *)
Lemma answer_carries_no_file_names :
  ¬ ∃ cited : string → gset string,
      ∀ file_name docs response,
        Scenario.retriever file_name Scenario.vs "question"
          (filter_dict ["news"] []) = Ok docs →
        fst (create_chatbot_retrieval_qa Scenario.Encoder
               (Scenario.retriever file_name) Scenario.llm
               "question" "" Scenario.vs ["news"] [] "gpt-4o"
               (mkInputs "question" "") Scenario.world0) = Ok response →
        cited response = file_names docs.
Proof.
  intros [cited H].
  pose proof (H "a.docx" _ _ eq_refl eq_refl) as Ha.
  pose proof (H "b.docx" _ _ eq_refl eq_refl) as Hb.
  rewrite Ha in Hb. unfold file_names in Hb. simpl in Hb.
  rewrite !lookup_singleton_eq in Hb. simpl in Hb.
  assert (Hin : "a.docx" ∈ ({["b.docx"]} ∪ ∅ : gset string)).
  { rewrite <- Hb. set_solver. }
  set_solver.
Qed.

Lemma chain_returns_generated_text_witness :
  ∃ docs,
    Scenario.retriever "a.docx" Scenario.vs "question" (filter_dict ["news"] [])
    = Ok docs
    ∧ Scenario.llm "gpt-4o" (mkPrompt docs "question" "") = Ok "answer".
Proof.
  destruct (chain_returns_generated_text Scenario.Encoder
              (Scenario.retriever "a.docx") Scenario.llm "question" ""
              Scenario.vs ["news"] [] "gpt-4o" (mkInputs "question" "")
              Scenario.world0 "answer"
              (mkWorld None
                 [get_relevant_documents "question" (filter_dict ["news"] []);
                  llm_invoke "gpt-4o"
                    (mkPrompt [mkDocument "text" {[ "file_name" := "a.docx" ]}]
                       "question" "")]))
    as (docs & Hd & Hl & _).
  - reflexivity.
  - exists docs. split; assumption.
Defined.

Lemma filter_dict_ALL_among_others_witness :
  filter_dict ["ALL"; "2023"] [] !! "category" = Some (In_ ["ALL"; "2023"])
  ∧ filter_dict [] ["ALL"; "2023"] !! "year" = Some (In_ ["ALL"; "2023"]).
Proof.
  apply (filter_dict_ALL_among_others ["ALL"; "2023"] []).
  - apply list_elem_of_here.
  - exists "2023". split.
    + apply list_elem_of_further, list_elem_of_here.
    + discriminate.
Defined.

(** * Further properties *)

(** ** Text extraction *)

Lemma extract_fold (paragraphs : list string) (acc : string) :
  fold_left (fun text para => text +:+ (para +:+ newline)) paragraphs acc
  = acc +:+ extract_text_from_docx paragraphs.
Proof.
  unfold extract_text_from_docx. revert acc.
  induction paragraphs as [|p ps IH]; intros acc; simpl.
  - by rewrite append_empty_r.
  - rewrite IH, (IH ("" +:+ p +:+ newline)), append_empty_l.
    by rewrite !append_assoc.
Qed.

Lemma extract_cons (p : string) (ps : list string) :
  extract_text_from_docx (p :: ps)
  = p +:+ newline +:+ extract_text_from_docx ps.
Proof.
  unfold extract_text_from_docx at 1. simpl.
  by rewrite extract_fold, append_empty_l, !append_assoc.
Qed.

(** Whether [newline] starts a text depends on its first character only. *)
Lemma prefix_newline (c : ascii) (s : string) :
  String.prefix newline (String c s)
  = bool_decide (c = "010"%char).
Proof.
  unfold newline. cbn [String.prefix].
  destruct (ascii_dec "010" c) as [<-|Hne].
  - by destruct s.
  - rewrite bool_decide_eq_false_2; [done|]. by intros ->.
Qed.

(** Splitting at line breaks stops at the end of a paragraph that holds no
    line break. *)
Lemma split_go_paragraph (p rest : string) :
  Py.contains newline p = false →
  Py.split_go newline 0 (p +:+ newline +:+ rest)
  = (p, Py.split newline rest).
Proof.
  induction p as [|c p IH]; intros Hp.
  - rewrite append_empty_l. unfold newline at 2. rewrite append_cons, append_empty_l.
    cbn [Py.split_go]. rewrite prefix_newline, bool_decide_eq_true_2 by done.
    unfold Py.split. simpl. by destruct (Py.split_go newline 0 rest).
  - rewrite append_cons. cbn [Py.split_go]. rewrite prefix_newline.
    cbn [Py.contains] in Hp. apply orb_false_iff in Hp as [Hc Hp].
    rewrite prefix_newline in Hc. rewrite Hc, (IH Hp). done.
Qed.

(** X1: the paragraphs of a document can be read back from the extracted
    text: when no paragraph holds a line break, splitting the text at line
    breaks gives the paragraphs, followed by one empty piece for the final
    line break. *)
Theorem extract_text_split (paragraphs : list string) :
  Forall (fun p => Py.contains newline p = false) paragraphs →
  Py.split newline (extract_text_from_docx paragraphs) = paragraphs ++ [""].
Proof.
  induction 1 as [|p ps Hp _ IH]; [done|].
  rewrite extract_cons. unfold Py.split at 1.
  rewrite split_go_paragraph by done. by rewrite IH.
Qed.

Lemma extract_text_split_witness :
  Py.split newline (extract_text_from_docx ["first paragraph"; ""; "third"])
  = ["first paragraph"; ""; "third"; ""].
Proof.
  apply (extract_text_split ["first paragraph"; ""; "third"]).
  repeat constructor.
Defined.

Lemma contains_append_r (sep s t : string) :
  Py.contains sep t = true → Py.contains sep (s +:+ t) = true.
Proof.
  intros H. induction s as [|c s IH]; [done|].
  rewrite append_cons. cbn [Py.contains]. rewrite IH. apply orb_true_r.
Qed.

Lemma whitespace_free_contains_newline (s : string) :
  Py.contains newline s = true → whitespace_free s = false.
Proof.
  induction s as [|c s IH]; [done|]. cbn [Py.contains whitespace_free].
  rewrite prefix_newline. intros [Hc|Hs]%orb_true_iff.
  - apply bool_decide_eq_true in Hc as ->. done.
  - rewrite (IH Hs). apply andb_false_r.
Qed.

(** X2: the text extracted from a document with at least one paragraph
    ends every paragraph with a line break, so it always holds a line
    break and is never free of white space, whatever the paragraphs are. *)
Theorem extract_text_has_newline (paragraphs : list string) :
  paragraphs ≠ [] →
  Py.contains newline (extract_text_from_docx paragraphs) = true
  ∧ whitespace_free (extract_text_from_docx paragraphs) = false.
Proof.
  intros Hne. destruct paragraphs as [|p ps]; [done|].
  assert (H : Py.contains newline (extract_text_from_docx (p :: ps)) = true).
  { rewrite extract_cons. apply contains_append_r.
    unfold newline at 2. rewrite append_cons. cbn [Py.contains].
    by rewrite prefix_newline. }
  split; [done|]. by apply whitespace_free_contains_newline.
Qed.

Lemma extract_text_has_newline_witness :
  Py.contains newline (extract_text_from_docx ["abc"]) = true
  ∧ whitespace_free (extract_text_from_docx ["abc"]) = false.
Proof. apply (extract_text_has_newline ["abc"]). discriminate. Defined.

(** ** Numbering of chunks *)

Lemma map_seq_from {A} (f : nat → A) (a n : nat) :
  map f (seq a n) = map (fun i => f (a + i)%nat) (seq 0 n).
Proof.
  revert a. induction n as [|n IH]; intros a; simpl; [done|].
  f_equal; [f_equal; lia|].
  rewrite (IH (S a)), <- (seq_shift n 0), map_map.
  apply map_ext. intros i. f_equal. lia.
Qed.

Lemma shift_ids_app (k : Z) (a b : list Doc) :
  shift_ids k (a ++ b) = shift_ids k a ++ shift_ids k b.
Proof. unfold shift_ids. apply map_app. Qed.

Section Numbering.

Variable normalize : string -> string.
Variable word_tokenize : string -> list string.
Variable splitter : Z -> Z -> string -> list string.

Abbreviation chunks1 := (chunks_from normalize word_tokenize).
Abbreviation chunks := (all_chunks_from normalize word_tokenize splitter).
Abbreviation windows doc := (splitter CHUNK_SIZE CHUNK_OVERLAP (content doc)).

(** The ids [n], [n+1], ..., [n+k-1]. *)
Lemma ids_chunks_from n doc ws :
  map id (chunks1 n doc ws)
  = map (fun i => Some (n + Z.of_nat i)) (seq 0 (length ws)).
Proof.
  unfold chunks_from. revert n.
  induction ws as [|w ws IH]; intros n; [done|].
  simpl. f_equal. rewrite <- seq_shift, map_map.
  replace (map id (imap _ ws))
    with (map id (imap (fun i w => mkDoc (Some ((n + 1) + Z.of_nat i))
                          (preprocess_text normalize word_tokenize w)
                          (metadata doc)) ws)).
  - rewrite IH. apply map_ext. intros i. f_equal. lia.
  - f_equal. apply imap_ext. intros i x _. simpl. do 2 f_equal. lia.
Qed.

Lemma length_chunks_from n doc ws : length (chunks1 n doc ws) = length ws.
Proof. unfold chunks_from. apply length_imap. Qed.

Lemma length_all_chunks_from n docs :
  length (chunks n docs) = length (concat (map (fun doc => windows doc) docs)).
Proof.
  revert n. induction docs as [|doc docs IH]; intros n; [done|].
  simpl. rewrite !length_app, length_chunks_from. by rewrite IH.
Qed.

Lemma ids_all_chunks_from n docs :
  map id (chunks n docs)
  = map (fun i => Some (n + Z.of_nat i)) (seq 0 (length (chunks n docs))).
Proof.
  revert n. induction docs as [|doc docs IH]; intros n; [done|].
  simpl. rewrite map_app, length_app, seq_app, map_app.
  rewrite ids_chunks_from, length_chunks_from. f_equal.
  rewrite IH. simpl. rewrite (map_seq_from _ (length (windows doc))).
  apply map_ext. intros i. f_equal. lia.
Qed.

Lemma shift_chunks_from n k doc ws :
  chunks1 (n + k) doc ws = shift_ids k (chunks1 n doc ws).
Proof.
  unfold chunks_from, shift_ids. apply list_eq. intros i.
  rewrite list_lookup_imap.
  change (map ?f ?l) with (f <$> l). rewrite list_lookup_fmap, list_lookup_imap.
  destruct (ws !! i); simpl; [|done]. do 3 f_equal. lia.
Qed.

Lemma shift_all_chunks_from n k docs :
  chunks (n + k) docs = shift_ids k (chunks n docs).
Proof.
  revert n. induction docs as [|doc docs IH]; intros n; [done|].
  simpl. rewrite shift_ids_app, <- shift_chunks_from. f_equal.
  rewrite <- IH. f_equal. lia.
Qed.

Lemma all_chunks_from_app n docs1 docs2 :
  chunks n (docs1 ++ docs2)
  = chunks n docs1 ++ chunks (n + Z.of_nat (length (chunks n docs1))) docs2.
Proof.
  revert n. induction docs1 as [|doc docs1 IH]; intros n; simpl.
  - f_equal. lia.
  - rewrite <- app_assoc. f_equal. rewrite IH. f_equal. f_equal.
    rewrite length_app, length_chunks_from. lia.
Qed.

(** X3: [split_documents] makes one chunk for every window of every
    document, in order, and numbers them 1, 2, 3, ... across the whole
    batch: the ids are consecutive, never restart at a new document and
    never repeat. *)
Theorem split_documents_ids (docs : list Doc) :
  let chunks := split_documents normalize word_tokenize splitter docs in
  length chunks = length (concat (map (fun doc => windows doc) docs))
  ∧ map id chunks
    = map (fun i => Some (1 + Z.of_nat i)) (seq 0 (length chunks))
  ∧ NoDup (map id chunks).
Proof.
  intros cs. unfold cs. rewrite split_documents_spec.
  split_and!.
  - apply length_all_chunks_from.
  - apply ids_all_chunks_from.
  - rewrite ids_all_chunks_from.
    apply NoDup_fmap_2; [|apply NoDup_seq].
    intros i j [= H]. lia.
Qed.

(** X4: splitting a batch is splitting its two halves one after the other:
    the chunks of the second half are those it would give alone, with
    their ids raised by the number of chunks of the first half. *)
Theorem split_documents_app (docs1 docs2 : list Doc) :
  split_documents normalize word_tokenize splitter (docs1 ++ docs2)
  = split_documents normalize word_tokenize splitter docs1
    ++ shift_ids
         (Z.of_nat (length (split_documents normalize word_tokenize splitter
                              docs1)))
         (split_documents normalize word_tokenize splitter docs2).
Proof.
  rewrite !split_documents_spec, all_chunks_from_app.
  by rewrite shift_all_chunks_from.
Qed.

End Numbering.

(** ** Uploads and the encoder state *)

Section Uploads.

Variable normalize : string -> string.
Variable word_tokenize : string -> list string.
Variable splitter : Z -> Z -> string -> list string.
Variable Encoder : Type.
Variable bm25_fit : list string -> Encoder.
Variable bm25_parse : string -> option Encoder.
Variable bm25_serialize : Encoder -> string.
Variable vs_add_texts : list string -> list Metadata -> Result unit.

Abbreviation process :=
  (process_document normalize word_tokenize splitter Encoder bm25_fit
     bm25_parse bm25_serialize vs_add_texts).
Abbreviation chunks_of_doc doc :=
  (split_documents normalize word_tokenize splitter [doc]).
Abbreviation run :=
  (run_operations normalize word_tokenize splitter Encoder bm25_fit
     bm25_parse bm25_serialize vs_add_texts).
Abbreviation run1 :=
  (run_operation normalize word_tokenize splitter Encoder bm25_fit
     bm25_parse bm25_serialize vs_add_texts).

(** An upload when the encoder state loads: the state is read, the chunks
    are handed to the index, and an error is shown if the index raised. *)
Lemma process_document_loadable doc c enc tr :
  bm25_parse c = Some enc →
  process doc (mkWorld (Some c) tr)
  = (Ok tt,
     mkWorld (Some c)
       (tr ++ [BM25_load;
               add_texts (map content (chunks_of_doc doc))
                 (map metadata (chunks_of_doc doc))]
           ++ error_if_raised
                (vs_add_texts (map content (chunks_of_doc doc))
                   (map metadata (chunks_of_doc doc))))).
Proof.
  intros H. unfold process_document, try_except, bind.
  rewrite (ingest_reuses_state _ _ _ _ _ _ _ enc) by done.
  destruct (vs_add_texts _ _); unfold emit; simpl; by rewrite <- ?app_assoc.
Qed.


(** X5: an upload while the encoder state file exists but cannot be read
    shows an error and does nothing else: no chunk reaches the index,
    nothing is fitted and the file is left as it is. *)
Theorem upload_with_unreadable_state doc c tr :
  bm25_parse c = None →
  process doc (mkWorld (Some c) tr)
  = (Ok tt, mkWorld (Some c) (tr ++ [BM25_load; st_error])).
Proof.
  intros H. unfold process_document, try_except, bind.
  rewrite ingest_raises_on_unreadable_state by done.
  unfold emit. simpl. by rewrite <- app_assoc.
Qed.



(** The events of one operation when the encoder state loads. *)
Lemma run_operation_loadable op c enc tr :
  bm25_parse c = Some enc →
  ∃ evs, run1 op (mkWorld (Some c) tr) = (Ok tt, mkWorld (Some c) (tr ++ evs))
         ∧ Forall (fun e => is_fit e = false ∧ is_dump e = false) evs.
Proof.
  intros H. destruct op as [doc|k]; simpl.
  - rewrite (process_document_loadable _ _ enc) by done.
    eexists. split; [done|].
    destruct (vs_add_texts _ _); repeat constructor.
  - unfold bind. rewrite (init_reuses_state _ _ _ _ _ _ enc) by done.
    simpl. eexists. split; [done|]. repeat constructor.
Qed.

Lemma run_operations_loadable ops c enc tr :
  bm25_parse c = Some enc →
  ∃ evs, run ops (mkWorld (Some c) tr) = (Ok tt, mkWorld (Some c) (tr ++ evs))
         ∧ Forall (fun e => is_fit e = false ∧ is_dump e = false) evs.
Proof.
  intros H. revert tr. induction ops as [|op ops IH]; intros tr.
  - exists []. by rewrite app_nil_r.
  - destruct (run_operation_loadable op c enc tr H) as (evs1 & E1 & F1).
    destruct (IH (tr ++ evs1)) as (evs2 & E2 & F2).
    exists (evs1 ++ evs2). simpl. unfold bind at 1. rewrite E1, E2.
    split; [by rewrite app_assoc|]. by apply Forall_app.
Qed.

(** X8: once the encoder state file exists and loads, no sequence of
    uploads and chat openings fits an encoder again or writes the file:
    the state stays what it was. *)
Theorem session_keeps_encoder_state ops w c enc :
  bm25_file w = Some c → bm25_parse c = Some enc →
  let w' := snd (run ops w) in
  bm25_file w' = Some c
  ∧ ∃ evs, trace w' = trace w ++ evs
           ∧ Forall (fun e => is_fit e = false ∧ is_dump e = false) evs.
Proof.
  intros Hf Hp w'. destruct w as [f tr]. simpl in Hf. subst f.
  destruct (run_operations_loadable ops c enc tr Hp) as (evs & E & F).
  unfold w'. rewrite E. simpl. eauto.
Qed.



End Uploads.

(** ** The submit handler in full *)

Section SubmitOutcomes.

Variable Encoder : Type.
Variable vs_get_relevant_documents :
  Vectorstore Encoder -> string -> Filter -> Result (list Document).
Variable llm : string -> Prompt -> Result string.

Abbreviation submit_ := (chatbot_page_submit Encoder vs_get_relevant_documents llm).

Lemma additional_note_default (note : string) :
  (if Py.truthy_str note then note else "") = note.
Proof. by destruct note. Qed.

(** X10: what an accepted request does.  The retriever is called once with
    the question and the filter; if it raises, an error is shown and the
    model is not called.  Otherwise the model is called once, with all
    retrieved documents in the order given, the question and the note as
    typed; its text is shown, or an error if it raises. *)
Theorem submit_outcomes vs main_query additional_note categories
  sub_categories selected_model w :
  main_query ≠ "" → ¬ (categories = [] ∧ sub_categories = []) →
  let f := filter_dict categories sub_categories in
  submit_ vs main_query additional_note categories sub_categories
    selected_model w
  = (Ok tt,
     mkWorld (bm25_file w)
       (trace w
        ++ get_relevant_documents main_query f
           :: match vs_get_relevant_documents vs main_query f with
              | Raise => [st_error]
              | Ok docs =>
                  let p := mkPrompt docs main_query additional_note in
                  [llm_invoke selected_model p;
                   match llm selected_model p with
                   | Ok response => st_write response
                   | Raise => st_error
                   end]
              end)).
Proof.
  intros Hq Hsel f. unfold chatbot_page_submit.
  assert (Py.truthy_str main_query = true) as -> by (by destruct main_query).
  assert (negb (Py.truthy categories) && negb (Py.truthy sub_categories) = false)
    as ->.
  { destruct categories, sub_categories; simpl; try done. tauto. }
  cbn [negb]. unfold try_except, bind. cbv beta iota zeta.
  rewrite chain_run, additional_note_default. simpl. fold f.
  destruct (vs_get_relevant_documents vs main_query f) as [docs|]; simpl.
  - destruct (llm _ _) as [r|]; unfold emit; simpl; by rewrite <- !app_assoc.
  - unfold emit. simpl. by rewrite <- !app_assoc.
Qed.

(** X11: whatever is submitted and however the collaborators answer, the
    handler ends normally and leaves the encoder state file as it found
    it. *)
Theorem submit_keeps_state vs main_query additional_note categories
  sub_categories selected_model w :
  let r := submit_ vs main_query additional_note categories sub_categories
             selected_model w in
  fst r = Ok tt ∧ bm25_file (snd r) = bm25_file w.
Proof.
  unfold chatbot_page_submit.
  destruct (Py.truthy_str main_query); cbn [negb]; [|done].
  destruct (negb (Py.truthy categories) && negb (Py.truthy sub_categories));
    [done|].
  unfold try_except, bind. cbv beta iota zeta. rewrite chain_run.
  destruct (vs_get_relevant_documents _ _ _) as [docs|]; [|done].
  by destruct (llm _ _).
Qed.

End SubmitOutcomes.

(** ** Filters and uploaded documents *)

Lemma passes_filter_dict (categories sub_categories : list string)
  (md : Metadata) :
  passes (filter_dict categories sub_categories) md ↔
  ((categories = [] ∨ categories = ["ALL"])
   ∨ ∃ v, md !! "category" = Some v ∧ v ∈ categories)
  ∧ ((sub_categories = [] ∨ sub_categories = ["ALL"])
     ∨ ∃ v, md !! "year" = Some v ∧ v ∈ sub_categories).
Proof.
  pose proof (filter_dict_category categories sub_categories) as Hc.
  pose proof (filter_dict_year categories sub_categories) as Hy.
  pose proof (filter_dict_other categories sub_categories) as Ho.
  unfold passes. split.
  - intros H. split.
    + destruct (decide (categories = [] ∨ categories = ["ALL"])) as [|Hn]; [by left|].
      right. apply H. rewrite Hc. by rewrite bool_decide_eq_false_2.
    + destruct (decide (sub_categories = [] ∨ sub_categories = ["ALL"])) as [|Hn];
        [by left|].
      right. apply H. rewrite Hy. by rewrite bool_decide_eq_false_2.
  - intros [H1 H2] field values Hf.
    destruct (decide (field = "category")) as [->|Hn1].
    { rewrite Hc in Hf. case_bool_decide; [done|]. simplify_eq.
      destruct H1 as [?|?]; [tauto|done]. }
    destruct (decide (field = "year")) as [->|Hn2].
    { rewrite Hy in Hf. case_bool_decide; [done|]. simplify_eq.
      destruct H2 as [?|?]; [tauto|done]. }
    by rewrite Ho in Hf.
Qed.

(** X12: the filter lets every chunk through exactly when each of the two
    selections is empty or ["ALL"]; it is then the empty dict. *)
Theorem filter_dict_unconstrained (categories sub_categories : list string) :
  let unconstrained :=
    (categories = [] ∨ categories = ["ALL"])
    ∧ (sub_categories = [] ∨ sub_categories = ["ALL"]) in
  (filter_dict categories sub_categories = ∅ ↔ unconstrained)
  ∧ ((∀ md, passes (filter_dict categories sub_categories) md) ↔ unconstrained).
Proof.
  intros unconstrained. split.
  - split.
    + intros H.
      pose proof (filter_dict_category categories sub_categories) as Hc.
      pose proof (filter_dict_year categories sub_categories) as Hy.
      rewrite H, lookup_empty in Hc, Hy.
      split; [destruct (decide (categories = [] ∨ categories = ["ALL"]))
             |destruct (decide (sub_categories = [] ∨ sub_categories = ["ALL"]))];
        try done.
      * by rewrite bool_decide_eq_false_2 in Hc.
      * by rewrite bool_decide_eq_false_2 in Hy.
    + intros [H1 H2]. rewrite filter_dict_eq.
      by rewrite !bool_decide_eq_true_2.
  - split.
    + intros H. specialize (H ∅). apply passes_filter_dict in H as [H1 H2].
      split.
      * destruct H1 as [?|(v & Hv & _)]; [done|]. by rewrite lookup_empty in Hv.
      * destruct H2 as [?|(v & Hv & _)]; [done|]. by rewrite lookup_empty in Hv.
    + intros [H1 H2] md. apply passes_filter_dict. split; by left.
Qed.

(** X13: from upload to retrieval.  A chunk of an uploaded document passes
    the filter of a request exactly when the folder it was uploaded to is
    among the selected categories, or the category selection is empty or
    ["ALL"], and likewise for its sub-folder and the sub-category
    selection, a document uploaded without sub-folder counting as the
    sub-folder "". *)
Theorem uploaded_chunk_passes normalize word_tokenize splitter
  (text file_name selected_folder selected_subfolder : string)
  (categories sub_categories : list string) (chunk : Doc) :
  chunk ∈ split_documents normalize word_tokenize splitter
            [uploaded_doc text file_name selected_folder selected_subfolder] →
  (passes (filter_dict categories sub_categories) (metadata chunk) ↔
   ((categories = [] ∨ categories = ["ALL"]) ∨ selected_folder ∈ categories)
   ∧ ((sub_categories = [] ∨ sub_categories = ["ALL"])
      ∨ (if bool_decide (selected_subfolder = "None")
         then "" else selected_subfolder) ∈ sub_categories)).
Proof.
  rewrite split_documents_spec. intros H.
  apply elem_of_all_chunks_from in H as (doc & w & Hd & _ & _ & Hm).
  apply list_elem_of_singleton in Hd as ->.
  rewrite Hm, passes_filter_dict. unfold uploaded_doc. simpl.
  assert (Hcat : ∀ y : string,
            ({[ "file_name" := file_name; "category" := selected_folder;
                "year" := y ]} : Metadata) !! "category" = Some selected_folder).
  { intros y. by simplify_map_eq. }
  assert (Hyear : ∀ y : string,
            ({[ "file_name" := file_name; "category" := selected_folder;
                "year" := y ]} : Metadata) !! "year" = Some y).
  { intros y. by simplify_map_eq. }
  rewrite Hcat, Hyear.
  split; intros [H1 H2]; (split; [destruct H1 as [?|H1]|destruct H2 as [?|H2]]);
    try (by left); right.
  - destruct H1 as (v & [= <-] & ?). done.
  - destruct H2 as (v & [= <-] & ?). done.
  - eauto.
  - eauto.
Qed.

(** ** The taxonomy *)

Lemma get_selected_subfolders_some (folder_dict : gmap string (list string))
  (rest : list (gmap string (list string))) (selected_folders : list string) :
  get_selected_subfolders (folder_dict :: rest) selected_folders
  = Some ("ALL" :: concat (map (fun folder => default [] (folder_dict !! folder))
                             selected_folders)).
Proof.
  unfold get_selected_subfolders. case_bool_decide as Hsel.
  - by subst.
  - simpl. by rewrite get_selected_subfolders_fold.
Qed.

(** X14: [get_selected_subfolders] fails only on a taxonomy file without a
    first entry, and only when something is selected: for the empty
    selection it answers before it looks at the entry. *)
Theorem get_selected_subfolders_error
  (data : list (gmap string (list string))) (selected_folders : list string) :
  get_selected_subfolders data selected_folders = None
  ↔ data = [] ∧ selected_folders ≠ [].
Proof.
  destruct data as [|folder_dict rest].
  - unfold get_selected_subfolders. case_bool_decide; simpl; split;
      try done; tauto.
  - rewrite get_selected_subfolders_some. split; [done|]. by intros [? _].
Qed.

(** X15: selecting more folders only adds options at the end: the options
    of a selection followed by another are the options of the first,
    followed by those of the second without its leading "ALL". *)
Theorem get_selected_subfolders_app (folder_dict : gmap string (list string))
  (rest : list (gmap string (list string))) (selected1 selected2 : list string) :
  ∃ options1 options2,
    get_selected_subfolders (folder_dict :: rest) selected1 = Some options1
    ∧ get_selected_subfolders (folder_dict :: rest) selected2 = Some options2
    ∧ get_selected_subfolders (folder_dict :: rest) (selected1 ++ selected2)
      = Some (options1 ++ tail options2).
Proof.
  eexists _, _. rewrite !get_selected_subfolders_some.
  split_and!; [done..|].
  simpl. by rewrite map_app, concat_app.
Qed.

Section CreateSubfolder.

Variable folders : gmap string (list string).
Variable rest : list (gmap string (list string)).
Variables selected_folder new_subfolder_name : string.

(** The entry of the folder after the button was pressed. *)
Lemma create_subfolder_some :
  Py.strip new_subfolder_name ≠ "" →
  ∃ messages,
    create_subfolder (folders :: rest) selected_folder new_subfolder_name
    = Some (<[selected_folder :=
                match folders !! selected_folder with
                | Some subfolders =>
                    if bool_decide (new_subfolder_name ∉ subfolders)
                    then subfolders ++ [new_subfolder_name] else subfolders
                | None => [new_subfolder_name]
                end]> folders :: rest,
            messages ++ [subfolder_added])
    ∧ (subfolder_exists ∈ messages ↔
       ∃ subfolders, folders !! selected_folder = Some subfolders
                     ∧ new_subfolder_name ∈ subfolders).
Proof.
  intros Hne. unfold create_subfolder.
  assert (Py.truthy_str new_subfolder_name
          && Py.truthy_str (Py.strip new_subfolder_name) = true) as ->.
  { destruct new_subfolder_name; [done|]. simpl Py.truthy_str at 1.
    by destruct (Py.strip _). }
  destruct (folders !! selected_folder) as [subfolders|] eqn:E.
  - case_bool_decide as Hin.
    + exists []. split; [done|]. split; [by intros ?%elem_of_nil|].
      intros (s & [= <-] & ?). done.
    + exists [subfolder_exists]. rewrite insert_id by done.
      split; [done|]. split; [|intros _; apply list_elem_of_here].
      intros _. exists subfolders. split; [done|].
      by destruct (decide (new_subfolder_name ∈ subfolders)).
  - exists []. split; [done|]. split; [by intros ?%elem_of_nil|].
    by intros (s & ? & _).
Qed.

(** X16: pressing "create sub-folder" with a name that is not blank leaves
    the name among the sub-folders of the selected folder and changes no
    other folder and no other entry of the file.  A blank name changes
    nothing at all. *)
Theorem create_subfolder_effect :
  (Py.strip new_subfolder_name = "" →
   create_subfolder (folders :: rest) selected_folder new_subfolder_name
   = Some (folders :: rest, [enter_subfolder_name]))
  ∧ (Py.strip new_subfolder_name ≠ "" →
     ∃ folders' messages subfolders,
       create_subfolder (folders :: rest) selected_folder new_subfolder_name
       = Some (folders' :: rest, messages)
       ∧ folders' !! selected_folder = Some subfolders
       ∧ new_subfolder_name ∈ subfolders
       ∧ (∀ old, folders !! selected_folder = Some old → old `prefix_of` subfolders)
       ∧ ∀ other, other ≠ selected_folder → folders' !! other = folders !! other).
Proof.
  split.
  - intros H. unfold create_subfolder. rewrite H. simpl.
    by rewrite andb_false_r.
  - intros Hne. destruct (create_subfolder_some Hne) as (messages & -> & _).
    eexists _, _, _. split; [done|].
    rewrite lookup_insert_eq. split; [done|].
    split_and!.
    + destruct (folders !! selected_folder) as [old|].
      * case_bool_decide as Hin.
        -- apply elem_of_app. right. apply list_elem_of_here.
        -- by destruct (decide (new_subfolder_name ∈ old)).
      * apply list_elem_of_here.
    + intros old ->. case_bool_decide.
      * by apply prefix_app_r.
      * done.
    + intros other Ho. by rewrite lookup_insert_ne.
Qed.

(** X17: pressing the button a second time with the same name changes
    nothing more: the structure stays as the first press left it, and the
    "already exists" warning is shown. *)
Theorem create_subfolder_twice structure' messages :
  Py.strip new_subfolder_name ≠ "" →
  create_subfolder (folders :: rest) selected_folder new_subfolder_name
  = Some (structure', messages) →
  ∃ messages',
    create_subfolder structure' selected_folder new_subfolder_name
    = Some (structure', messages')
    ∧ subfolder_exists ∈ messages'.
Proof.
  intros Hne H.
  destruct (create_subfolder_some Hne) as (m & E & _).
  rewrite E in H. injection H as <- <-.
  unfold create_subfolder.
  assert (Py.truthy_str new_subfolder_name
          && Py.truthy_str (Py.strip new_subfolder_name) = true) as ->.
  { destruct new_subfolder_name; [done|]. simpl Py.truthy_str at 1.
    by destruct (Py.strip _). }
  rewrite lookup_insert_eq.
  assert (Hin : new_subfolder_name ∈
                  match folders !! selected_folder with
                  | Some subfolders =>
                      if bool_decide (new_subfolder_name ∉ subfolders)
                      then subfolders ++ [new_subfolder_name] else subfolders
                  | None => [new_subfolder_name]
                  end).
  { destruct (folders !! selected_folder) as [old|].
    - case_bool_decide as Hin.
      + apply elem_of_app. right. apply list_elem_of_here.
      + by destruct (decide (new_subfolder_name ∈ old)).
    - apply list_elem_of_here. }
  rewrite bool_decide_eq_false_2 by (by intros Hn; apply Hn).
  eexists. split; [done|]. apply list_elem_of_here.
Qed.

(** X18: the button never makes a sub-folder appear twice: if no folder
    lists a sub-folder twice before, none does after. *)
Theorem create_subfolder_NoDup structure' messages :
  (∀ folder subfolders, folders !! folder = Some subfolders → NoDup subfolders) →
  create_subfolder (folders :: rest) selected_folder new_subfolder_name
  = Some (structure', messages) →
  ∃ folders', structure' = folders' :: rest
    ∧ ∀ folder subfolders, folders' !! folder = Some subfolders → NoDup subfolders.
Proof.
  intros Hnd H.
  destruct (decide (Py.strip new_subfolder_name = "")) as [Hb|Hne].
  - unfold create_subfolder in H. rewrite Hb in H. simpl in H.
    rewrite andb_false_r in H. injection H as <- _. by exists folders.
  - destruct (create_subfolder_some Hne) as (m & E & _).
    rewrite E in H. injection H as <- _.
    eexists. split; [done|]. intros folder subfolders.
    destruct (decide (folder = selected_folder)) as [->|Hf].
    + rewrite lookup_insert_eq. intros [= <-].
      destruct (folders !! selected_folder) as [old|] eqn:Eold.
      * case_bool_decide as Hin; [|by eapply Hnd].
        apply NoDup_app. split_and!; [by eapply Hnd | | apply NoDup_singleton].
        intros x Hx ->%list_elem_of_singleton. done.
      * apply NoDup_singleton.
    + rewrite lookup_insert_ne by done. apply Hnd.
Qed.

(** X19: a sub-folder that was created is offered for its folder, and
    every option offered before is still offered. *)
Theorem created_subfolder_is_offered structure' messages :
  Py.strip new_subfolder_name ≠ "" →
  create_subfolder (folders :: rest) selected_folder new_subfolder_name
  = Some (structure', messages) →
  (∃ options,
     get_selected_subfolders structure' [selected_folder] = Some options
     ∧ new_subfolder_name ∈ options)
  ∧ ∀ selected options,
      get_selected_subfolders (folders :: rest) selected = Some options →
      ∃ options',
        get_selected_subfolders structure' selected = Some options'
        ∧ options ⊆ options'.
Proof.
  intros Hne H.
  destruct (create_subfolder_some Hne) as (m & E & _).
  rewrite E in H. injection H as <- _.
  set (subs' := match folders !! selected_folder with
                | Some subfolders =>
                    if bool_decide (new_subfolder_name ∉ subfolders)
                    then subfolders ++ [new_subfolder_name] else subfolders
                | None => [new_subfolder_name]
                end).
  assert (Hin : new_subfolder_name ∈ subs').
  { unfold subs'. destruct (folders !! selected_folder) as [old|].
    - case_bool_decide as Hin.
      + apply elem_of_app. right. apply list_elem_of_here.
      + by destruct (decide (new_subfolder_name ∈ old)).
    - apply list_elem_of_here. }
  assert (Hsub : ∀ folder, default [] (folders !! folder)
                           ⊆ default [] (<[selected_folder := subs']> folders !! folder)).
  { intros folder. destruct (decide (folder = selected_folder)) as [->|Hf].
    - rewrite lookup_insert_eq. simpl. unfold subs'.
      destruct (folders !! selected_folder) as [old|]; simpl.
      + case_bool_decide; [|done]. intros x Hx. apply elem_of_app. by left.
      + intros x Hx. by apply elem_of_nil in Hx.
    - by rewrite lookup_insert_ne. }
  split.
  - rewrite get_selected_subfolders_some. eexists. split; [done|].
    simpl. rewrite lookup_insert_eq. simpl. rewrite app_nil_r.
    by apply list_elem_of_further.
  - intros selected options. rewrite !get_selected_subfolders_some.
    intros [= <-]. eexists. split; [done|].
    intros x [->|Hx]%elem_of_cons; [apply list_elem_of_here|].
    apply list_elem_of_further.
    apply elem_of_concat in Hx as (l & Hx & Hl).
    apply list_elem_of_fmap in Hl as (folder & -> & Hf).
    apply elem_of_concat. eexists. split; [by apply (Hsub folder)|].
    apply list_elem_of_fmap. by exists folder.
Qed.

End CreateSubfolder.

(** ** The splitter on short texts *)

Lemma join_empty_cons (x : string) (l : list string) :
  Py.join "" (x :: l) = x +:+ Py.join "" l.
Proof.
  destruct l as [|y l]; simpl.
  - by rewrite append_empty_r.
  - done.
Qed.

Lemma join_empty_filter (l : list string) :
  Py.join "" (filter (fun s => s ≠ EmptyString) l) = Py.join "" l.
Proof.
  induction l as [|x l IH]; [done|].
  rewrite join_empty_cons. destruct (decide (x = "")) as [->|Hx].
  - rewrite filter_cons_False by (by intros ?). by rewrite IH.
  - rewrite filter_cons_True by done. by rewrite join_empty_cons, IH.
Qed.

Lemma split_go_skip (sep : string) (k : nat) (text : string) :
  Py.split_go sep k text = Py.split_go sep 0 (string_drop k text).
Proof.
  revert k. induction text as [|c text IH]; intros k.
  - by destruct k.
  - destruct k as [|k]; [done|]. simpl. apply IH.
Qed.

Lemma prefix_drop (s1 s2 : string) :
  String.prefix s1 s2 = true → s2 = s1 +:+ string_drop (String.length s1) s2.
Proof.
  revert s2. induction s1 as [|a s1 IH]; intros s2 H; [done|].
  destruct s2 as [|b s2]; [done|]. cbn [String.prefix] in H.
  destruct (ascii_dec a b) as [->|]; [|done].
  rewrite append_cons. simpl. f_equal. by apply IH.
Qed.

Lemma string_drop_length (k : nat) (s : string) :
  (String.length (string_drop k s) ≤ String.length s)%nat.
Proof.
  revert s. induction k as [|k IH]; intros s; [done|].
  destruct s as [|c s]; simpl; [done|]. specialize (IH s). lia.
Qed.

(** The pieces of a split, each with the separator put back in front, give
    back the text. *)
Lemma split_go_join (sep : string) (n : nat) :
  sep ≠ "" →
  ∀ text p ps,
    (String.length text ≤ n)%nat →
    Py.split_go sep 0 text = (p, ps) →
    p +:+ Py.join "" (map (fun q => sep +:+ q) ps) = text.
Proof.
  intros Hsep. induction n as [|n IH]; intros text p ps Hn.
  - destruct text; [|simpl in Hn; lia]. by intros [= <- <-].
  - destruct text as [|c rest]; [by intros [= <- <-]|].
    simpl in Hn. cbn [Py.split_go].
    destruct (String.prefix sep (String c rest)) eqn:Hpre.
    + destruct (Py.split_go sep (String.length sep - 1) rest) as [p' ps'] eqn:E.
      intros [= <- <-]. rewrite split_go_skip in E.
      apply IH in E; [|pose proof (string_drop_length (String.length sep - 1) rest); lia].
      rewrite append_empty_l. cbn [map]. rewrite join_empty_cons, append_assoc, E.
      etransitivity; [|symmetry; apply (prefix_drop _ _ Hpre)].
      destruct sep as [|a sep']; [done|]. simpl. by rewrite Nat.sub_0_r.
    + destruct (Py.split_go sep 0 rest) as [p' ps'] eqn:E.
      intros [= <- <-]. rewrite append_cons. f_equal. apply (IH rest); [lia|done].
Qed.

Lemma join_split_text_with_regex (text separator : string) :
  Py.join "" (RecursiveCharacterTextSplitter._split_text_with_regex text separator)
  = text.
Proof.
  unfold RecursiveCharacterTextSplitter._split_text_with_regex.
  rewrite join_empty_filter.
  destruct separator as [|a sep]; simpl Py.truthy_str; cbv iota.
  - apply join_chars.
  - unfold Py.split.
    destruct (Py.split_go (String a sep) 0 text) as [p ps] eqn:E.
    rewrite join_empty_cons.
    by apply (split_go_join (String a sep) (String.length text)) in E.
Qed.

Section ShortText.

Import RecursiveCharacterTextSplitter.

Variables (chunk_size chunk_overlap : Z).

Lemma piece_le_sum (s : string) (l : list string) :
  s ∈ l → Py.len s <= sum_len l.
Proof.
  induction 1 as [s l|s x l _ IH]; simpl.
  - pose proof (sum_len_nonneg l). lia.
  - pose proof (len_nonneg x). lia.
Qed.

(** Pieces that fit together in one window are joined into one. *)
Lemma merge_loop_all splits docs current_doc total :
  total = sum_len current_doc →
  sum_len current_doc + sum_len splits <= chunk_size →
  merge_loop chunk_size chunk_overlap "" splits docs current_doc total
  = append_doc docs (_join_docs (current_doc ++ splits) "").
Proof.
  revert current_doc total.
  induction splits as [|d splits IH]; intros cd total -> Hle.
  - by rewrite app_nil_r.
  - cbn [merge_loop]. change (Py.len "") with 0. rewrite !if_same.
    simpl in Hle. pose proof (sum_len_nonneg splits).
    assert ((chunk_size <? sum_len cd + Py.len d + 0) = false) as ->
      by (apply Z.ltb_ge; lia).
    simpl andb. cbv iota. rewrite !if_same. rewrite IH.
    + by rewrite <- app_assoc.
    + rewrite sum_len_app. simpl. lia.
    + rewrite sum_len_app. simpl. lia.
Qed.

(** The windows of a text shorter than [chunk_size], once a separator is
    chosen. *)
Lemma split_loop_short_text recur (text separator : string) :
  Py.len text < chunk_size →
  split_loop chunk_size chunk_overlap recur
    (_split_text_with_regex text separator) [] []
  = if Py.truthy_str (Py.strip text) then [Py.strip text] else [].
Proof.
  intros Hlen.
  pose proof (join_split_text_with_regex text separator) as Hjoin.
  set (pieces := _split_text_with_regex text separator) in *.
  assert (Hsum : sum_len pieces = Py.len text).
  { by rewrite <- len_join_empty, Hjoin. }
  rewrite split_loop_short.
  2:{ apply Forall_forall. intros s Hs. apply piece_le_sum in Hs. lia. }
  rewrite app_nil_l. unfold _merge_splits.
  rewrite merge_loop_all by (simpl; lia || done).
  simpl app. unfold _join_docs. rewrite Hjoin.
  destruct pieces as [|x l] eqn:E.
  - simpl in Hjoin. subst text. done.
  - simpl Py.truthy. cbv iota. by destruct (Py.truthy_str (Py.strip text)).
Qed.

Lemma _split_text_short seps (text : string) :
  seps ≠ [] → Py.len text < chunk_size →
  _split_text chunk_size chunk_overlap seps text
  = if Py.truthy_str (Py.strip text) then [Py.strip text] else [].
Proof.
  intros Hne Hlen. induction seps as [|_s new_separators IH]; [done|].
  cbn [_split_text]. destruct (negb (Py.truthy_str _s)).
  - by apply split_loop_short_text.
  - destruct (Py.contains _s text).
    + by apply split_loop_short_text.
    + destruct new_separators as [|s' seps'].
      * by apply split_loop_short_text.
      * by apply IH.
Qed.

(** X20: a text shorter than the chunk size is never cut: the splitter
    returns it as one window, without the white space around it, or
    returns no window at all when the text is blank. *)
Theorem short_text_is_one_window (text : string) :
  Py.len text < chunk_size →
  split_text chunk_size chunk_overlap text
  = if Py.truthy_str (Py.strip text) then [Py.strip text] else [].
Proof. intros H. by apply _split_text_short. Qed.

Abbreviation nonempty := (fun s : string => s ≠ EmptyString).

Lemma append_doc_nonempty docs current_doc separator :
  Forall nonempty docs →
  Forall nonempty (append_doc docs (_join_docs current_doc separator)).
Proof.
  intros H. unfold _join_docs.
  destruct (Py.strip _) as [|c s] eqn:E; simpl; [done|].
  apply Forall_app. split; [done|]. by apply Forall_singleton.
Qed.

Lemma merge_loop_nonempty separator splits docs current_doc total :
  Forall nonempty docs →
  Forall nonempty
    (merge_loop chunk_size chunk_overlap separator splits docs current_doc total).
Proof.
  revert docs current_doc total.
  induction splits as [|d splits IH]; intros docs cd total Hdocs.
  - by apply append_doc_nonempty.
  - cbn [merge_loop]. destruct (_ && _).
    + destruct (pop_front _ _ _ _ _ _) as [cd' t'].
      apply IH. by apply append_doc_nonempty.
    + by apply IH.
Qed.

Lemma split_loop_nonempty recur splits _good_splits final_chunks :
  match recur with
  | Some f => ∀ s, Forall nonempty (f s)
  | None => True
  end →
  Forall nonempty splits → Forall nonempty final_chunks →
  Forall nonempty
    (split_loop chunk_size chunk_overlap recur splits _good_splits final_chunks).
Proof.
  intros Hrec. revert _good_splits final_chunks.
  induction splits as [|s splits IH]; intros good final Hs Hfinal; simpl.
  - destruct (Py.truthy good); [|done].
    apply Forall_app. split; [done|]. by apply merge_loop_nonempty.
  - apply Forall_cons in Hs as [Hs1 Hs].
    destruct (Py.len s <? chunk_size); [by apply IH|].
    apply IH; [done|].
    assert (Hmerged : Forall nonempty
              (if Py.truthy good
               then final ++ _merge_splits chunk_size chunk_overlap good ""
               else final)).
    { destruct (Py.truthy good); [|done].
      apply Forall_app. split; [done|]. by apply merge_loop_nonempty. }
    destruct recur as [f|]; apply Forall_app; split; try done.
    by apply Forall_singleton.
Qed.

Lemma split_text_with_regex_nonempty text separator :
  Forall nonempty (_split_text_with_regex text separator).
Proof.
  unfold _split_text_with_regex. apply Forall_forall.
  by intros s [? _]%list_elem_of_filter.
Qed.

Lemma _split_text_nonempty seps text :
  Forall nonempty (_split_text chunk_size chunk_overlap seps text).
Proof.
  revert text. induction seps as [|_s new_separators IH]; intros text; [done|].
  cbn [_split_text].
  destruct (negb (Py.truthy_str _s)).
  { apply split_loop_nonempty; [done | apply split_text_with_regex_nonempty | done]. }
  destruct (Py.contains _s text).
  { apply split_loop_nonempty;
      [|apply split_text_with_regex_nonempty | done].
    destruct (Py.truthy new_separators); [|done]. intros s. apply IH. }
  destruct new_separators.
  - apply split_loop_nonempty; [done | apply split_text_with_regex_nonempty | done].
  - apply IH.
Qed.

(** X21: whatever the text and the sizes, the splitter never returns an
    empty window. *)
Theorem no_empty_window (text w : string) :
  w ∈ split_text chunk_size chunk_overlap text → w ≠ "".
Proof.
  intros Hw. pose proof (_split_text_nonempty separators text) as H.
  rewrite Forall_forall in H. by apply H.
Qed.

End ShortText.

(** X22: an uploaded document whose text is shorter than [CHUNK_SIZE]
    becomes exactly one chunk, with id 1, the metadata of the document and
    the normalised text without the white space around it; a blank
    document gives no chunk. *)
Theorem split_documents_short normalize word_tokenize (doc : Doc) :
  Py.len (content doc) < CHUNK_SIZE →
  split_documents normalize word_tokenize
    RecursiveCharacterTextSplitter.split_text [doc]
  = if Py.truthy_str (Py.strip (content doc))
    then [mkDoc (Some 1)
            (preprocess_text normalize word_tokenize (Py.strip (content doc)))
            (metadata doc)]
    else [].
Proof.
  intros H. rewrite split_documents_spec. cbn [all_chunks_from].
  unfold RecursiveCharacterTextSplitter.split_text.
  rewrite _split_text_short by done.
  by destruct (Py.truthy_str (Py.strip (content doc))).
Qed.

(** ** The further properties on concrete inputs *)

Lemma upload_with_unreadable_state_witness :
  process_document Scenario.normalize Scenario.word_tokenize
    RecursiveCharacterTextSplitter.split_text Scenario.Encoder
    Scenario.bm25_fit Scenario.bm25_parse Scenario.bm25_serialize
    Scenario.vs_add_texts Fixture.doc_abc (mkWorld (Some "") [])
  = (Ok tt, mkWorld (Some "") [BM25_load; st_error]).
Proof.
  apply (upload_with_unreadable_state Scenario.normalize Scenario.word_tokenize
           RecursiveCharacterTextSplitter.split_text Scenario.Encoder
           Scenario.bm25_fit Scenario.bm25_parse Scenario.bm25_serialize
           Scenario.vs_add_texts Fixture.doc_abc "" []).
  reflexivity.
Defined.



Lemma session_keeps_encoder_state_witness :
  bm25_file
    (snd (run_operations Scenario.normalize Scenario.word_tokenize
            RecursiveCharacterTextSplitter.split_text Scenario.Encoder
            Scenario.bm25_fit Scenario.bm25_parse Scenario.bm25_serialize
            Scenario.vs_add_texts
            [upload Fixture.doc_abc; open_chat 60; upload Fixture.doc_empty]
            (mkWorld (Some "x,y") [])))
  = Some "x,y".
Proof.
  apply (session_keeps_encoder_state Scenario.normalize Scenario.word_tokenize
           RecursiveCharacterTextSplitter.split_text Scenario.Encoder
           Scenario.bm25_fit Scenario.bm25_parse Scenario.bm25_serialize
           Scenario.vs_add_texts
           [upload Fixture.doc_abc; open_chat 60; upload Fixture.doc_empty]
           (mkWorld (Some "x,y") []) "x,y" ["x"; "y"]).
  - reflexivity.
  - reflexivity.
Defined.


Lemma submit_outcomes_witness :
  chatbot_page_submit Scenario.Encoder (Scenario.retriever "a.docx")
    Fixture.llm_fails Scenario.vs "question" "note" ["news"] ["ALL"] "gpt-4o"
    Scenario.world0
  = (Ok tt,
     mkWorld None
       [get_relevant_documents "question" (filter_dict ["news"] ["ALL"]);
        llm_invoke "gpt-4o"
          (mkPrompt [mkDocument "text" {[ "file_name" := "a.docx" ]}]
             "question" "note");
        st_error]).
Proof.
  apply (submit_outcomes Scenario.Encoder (Scenario.retriever "a.docx")
           Fixture.llm_fails Scenario.vs "question" "note" ["news"] ["ALL"]
           "gpt-4o" Scenario.world0).
  - discriminate.
  - intros [H _]. discriminate H.
Defined.

Lemma uploaded_chunk_passes_witness :
  passes (filter_dict ["news"] ["2024"])
    (metadata (mkDoc (Some 1) "abc"
                 {[ "file_name" := "a.docx"; "category" := "news"; "year" := "" ]}))
  ↔ ((["news"] = [] ∨ ["news"] = ["ALL"]) ∨ "news" ∈ ["news"])
    ∧ ((["2024"] = [] ∨ ["2024"] = ["ALL"]) ∨ "" ∈ ["2024"]).
Proof.
  apply (uploaded_chunk_passes Scenario.normalize Scenario.word_tokenize
           RecursiveCharacterTextSplitter.split_text "abc" "a.docx" "news" "None"
           ["news"] ["2024"]
           (mkDoc (Some 1) "abc"
              {[ "file_name" := "a.docx"; "category" := "news"; "year" := "" ]})).
  vm_compute. apply list_elem_of_here.
Defined.

Lemma create_subfolder_effect_witness :
  create_subfolder Scenario.folders "news" "  "
  = Some (Scenario.folders, [enter_subfolder_name])
  ∧ ∃ folders' messages subfolders,
      create_subfolder Scenario.folders "news" "2026"
      = Some (folders' :: [], messages)
      ∧ folders' !! "news" = Some subfolders
      ∧ "2026" ∈ subfolders
      ∧ (∀ old, Fixture.taxonomy !! "news" = Some old → old `prefix_of` subfolders)
      ∧ ∀ other, other ≠ "news" → folders' !! other = Fixture.taxonomy !! other.
Proof.
  split.
  - apply (create_subfolder_effect Fixture.taxonomy [] "news" "  "). reflexivity.
  - apply (create_subfolder_effect Fixture.taxonomy [] "news" "2026"). discriminate.
Defined.

Lemma create_subfolder_twice_witness :
  ∃ messages',
    create_subfolder
      [ <["news" := ["2023"; "2024"; "2026"]]> Fixture.taxonomy ] "news" "2026"
    = Some ([ <["news" := ["2023"; "2024"; "2026"]]> Fixture.taxonomy ], messages')
    ∧ subfolder_exists ∈ messages'.
Proof.
  apply (create_subfolder_twice Fixture.taxonomy [] "news" "2026"
           [ <["news" := ["2023"; "2024"; "2026"]]> Fixture.taxonomy ]
           [subfolder_added]).
  - discriminate.
  - vm_compute. reflexivity.
Defined.

Lemma taxonomy_NoDup (folder : string) (subfolders : list string) :
  Fixture.taxonomy !! folder = Some subfolders → NoDup subfolders.
Proof.
  unfold Fixture.taxonomy. intros H.
  destruct (decide (folder = "news")) as [->|Hn].
  { rewrite lookup_insert_eq in H. injection H as <-.
    apply (NoDup_cons_2 "2023"); [|apply NoDup_singleton].
    intros ?%list_elem_of_singleton. discriminate. }
  rewrite lookup_insert_ne in H by done.
  apply lookup_singleton_Some in H as [_ <-].
  apply (NoDup_cons_2 "2024"); [|apply NoDup_singleton].
  intros ?%list_elem_of_singleton. discriminate.
Defined.

Lemma create_subfolder_NoDup_witness :
  ∃ folders',
    [ <["news" := ["2023"; "2024"; "2026"]]> Fixture.taxonomy ] = folders' :: []
    ∧ ∀ folder subfolders,
        folders' !! folder = Some subfolders → NoDup subfolders.
Proof.
  apply (create_subfolder_NoDup Fixture.taxonomy [] "news" "2026"
           [ <["news" := ["2023"; "2024"; "2026"]]> Fixture.taxonomy ]
           [subfolder_added]).
  - apply taxonomy_NoDup.
  - vm_compute. reflexivity.
Defined.

Lemma created_subfolder_is_offered_witness :
  ∃ options,
    get_selected_subfolders
      [ <["news" := ["2023"; "2024"; "2026"]]> Fixture.taxonomy ] ["news"]
    = Some options
    ∧ "2026" ∈ options.
Proof.
  apply (created_subfolder_is_offered Fixture.taxonomy [] "news" "2026"
           [ <["news" := ["2023"; "2024"; "2026"]]> Fixture.taxonomy ]
           [subfolder_added]).
  - discriminate.
  - vm_compute. reflexivity.
Defined.

Lemma short_text_is_one_window_witness :
  RecursiveCharacterTextSplitter.split_text CHUNK_SIZE CHUNK_OVERLAP
    "  two words  "
  = ["two words"].
Proof.
  apply (short_text_is_one_window CHUNK_SIZE CHUNK_OVERLAP "  two words  ").
  reflexivity.
Defined.

Lemma no_empty_window_witness : "abc" ≠ "".
Proof.
  apply (no_empty_window CHUNK_SIZE CHUNK_OVERLAP "abc" "abc").
  vm_compute. apply list_elem_of_here.
Defined.

Lemma split_documents_short_witness :
  split_documents Scenario.normalize Scenario.word_tokenize
    RecursiveCharacterTextSplitter.split_text [Fixture.doc_abc]
  = [mkDoc (Some 1) "abc" ∅].
Proof.
  apply (split_documents_short Scenario.normalize Scenario.word_tokenize
           Fixture.doc_abc).
  reflexivity.
Defined.
